(** * Low-level USART driver (src/hardware/usart.c): model and properties

    The driver targets avr-gcc: [int] is 16 bits wide, [uint32_t] is
    [unsigned long].  Unsigned arithmetic wraps modulo [2^32]; the conversion
    of an out-of-range [uint32_t] to [int32_t] and the negation of an
    [int32_t] are taken modulo [2^32] (two's complement), as avr-gcc does.
    A division by zero has no value: it is the one undefined outcome of the
    model. *)

From Stdlib Require Import ZArith List Bool Lia.
From Stdlib.Strings Require Import Byte.
Import ListNotations.
Local Open Scope Z_scope.

(** ** Machine integers *)

Module CInt.

Definition u32 (x : Z) : Z := x mod 2 ^ 32.

Definition s32 (x : Z) : Z :=
  let y := x mod 2 ^ 32 in if y <? 2 ^ 31 then y else y - 2 ^ 32.

Definition u8 (x : Z) : Z := x mod 2 ^ 8.

(** C truth value of an integer. *)
Definition truthy (x : Z) : bool := negb (x =? 0).

Definition in_u32 (x : Z) : Prop := 0 <= x < 2 ^ 32.

End CInt.
Import CInt.

(** ** Names supplied by headers outside src/

    [<avr/io.h>] gives the bit numbers of the USART1 control registers,
    [hardware/usart.h] the two enable flags of the mode word and the FIFO
    header the event mask.  None of them is under src/, so the driver is
    modelled over any choice of them. *)

Class AvrIo : Type := {
  (* UCSR1C *)
  UMSEL10 : Z; UPM10 : Z; USBS1 : Z; UCSZ10 : Z; UCPOL1 : Z;
  (* UCSR1B *)
  RXCIE1 : Z; TXCIE1 : Z; UDRIE1 : Z; RXEN1 : Z; TXEN1 : Z; UCSZ12 : Z;
  (* UCSR1A *)
  TXC1 : Z; U2X1 : Z;
  (* hardware/usart.h *)
  USART_MODE_RXEN : Z; USART_MODE_TXEN : Z;
  (* FIFO events *)
  FIFO_EVT_NEW : Z
}.

(** Every bit name is a bit number of an 8-bit register. *)
Definition bit_numbers_ok `{AvrIo} : Prop :=
  Forall (fun b => 0 <= b < 8)
    [UMSEL10; UPM10; USBS1; UCSZ10; UCPOL1;
     RXCIE1; TXCIE1; UDRIE1; RXEN1; TXEN1; UCSZ12; TXC1; U2X1].

(** Unpacks [bit_numbers_ok] into one range per bit name. *)
Ltac bit_ranges H :=
  unfold bit_numbers_ok in H;
  repeat (apply Forall_cons_iff in H; destruct H as [? H]);
  cbv beta in *.

(** The USART1 layout of the AT90USB/ATmega32U4 family; for the enable
    flags and the event mask, whose header is not at hand, the low bits are
    taken.  Used to run the driver on concrete inputs. *)
Definition at90usb : AvrIo := {|
  UMSEL10 := 6; UPM10 := 4; USBS1 := 3; UCSZ10 := 1; UCPOL1 := 0;
  RXCIE1 := 7; TXCIE1 := 6; UDRIE1 := 5; RXEN1 := 4; TXEN1 := 3; UCSZ12 := 2;
  TXC1 := 6; U2X1 := 1;
  USART_MODE_RXEN := 1; USART_MODE_TXEN := 2;
  FIFO_EVT_NEW := 1
|}.

(** ** Byte queue *)

(** Event handlers are function pointers in the source; here they are tags,
    dispatched by [run_evth] below. *)
Inductive evth : Type :=
| evth_null
| evth_usart_txfifo
| evth_other (id : nat).

(** Modelled from the spec: [struct fifo_t] and its operations
    [fifo_read_one] and [fifo_write_one] are declared outside src/.  The spec
    describes a fixed-capacity byte queue with a non-blocking
    [try_pop -> Option<byte>] and [try_push(byte) -> Result<(), Full>]; the
    fields [consumer_evth] and [consumer_evtm] are the ones usart.c assigns. *)
Record fifo_t : Type := mk_fifo {
  fifo_data : list byte;
  fifo_total_sz : nat;
  consumer_evth : evth;
  consumer_evtm : Z
}.

Definition byte_val (b : byte) : Z := Z.of_N (Byte.to_N b).

Definition byte_of_Z (v : Z) : byte :=
  match Byte.of_N (Z.to_N (u8 v)) with
  | Some b => b
  | None => x00
  end.

Definition fifo_full (f : fifo_t) : bool :=
  (fifo_total_sz f <=? length (fifo_data f))%nat.

(** Modelled from the spec: [try_pop]; the source reads the result as an
    [int16_t] that is negative when nothing was popped. *)
Definition fifo_read_one (f : fifo_t) : Z * fifo_t :=
  match fifo_data f with
  | [] => (-1, f)
  | b :: rest =>
      (byte_val b,
       mk_fifo rest (fifo_total_sz f) (consumer_evth f) (consumer_evtm f))
  end.

(** Modelled from the spec: [try_push]; a full queue refuses the byte and
    stays as it is.  The result is [1] when the byte was stored. *)
Definition fifo_write_one (f : fifo_t) (v : Z) : Z * fifo_t :=
  if fifo_full f then (0, f)
  else (1, mk_fifo (fifo_data f ++ [byte_of_Z v]) (fifo_total_sz f)
             (consumer_evth f) (consumer_evtm f)).

(** ** Hardware registers and driver state *)

Inductive sfr : Type := UCSR1A | UCSR1B | UCSR1C | UBRR1 | UDR1.

Record sfr_file : Type := mk_sfr {
  v_UCSR1A : Z; v_UCSR1B : Z; v_UCSR1C : Z; v_UBRR1 : Z; v_UDR1 : Z
}.

(** The registers are declared by [<avr/io.h>], outside this repository.
    [sfrs] keeps, for each register, the value of the expression the program
    last assigned to it (for [UBRR1] the [uint32_t] divisor of line 73), and
    every assignment is also recorded, oldest first, in [sfr_writes].  What
    the register itself then holds is that value reduced to the register's
    width: [sfr_held] below. *)
Record machine : Type := mk_machine {
  sfrs : sfr_file;
  sfr_writes : list (sfr * Z);
  usart_fifo_tx : fifo_t;
  usart_fifo_rx : fifo_t
}.

Definition sfr_get (r : sfr) (f : sfr_file) : Z :=
  match r with
  | UCSR1A => v_UCSR1A f | UCSR1B => v_UCSR1B f | UCSR1C => v_UCSR1C f
  | UBRR1 => v_UBRR1 f | UDR1 => v_UDR1 f
  end.

Definition sfr_set (r : sfr) (v : Z) (f : sfr_file) : sfr_file :=
  match r with
  | UCSR1A => mk_sfr v (v_UCSR1B f) (v_UCSR1C f) (v_UBRR1 f) (v_UDR1 f)
  | UCSR1B => mk_sfr (v_UCSR1A f) v (v_UCSR1C f) (v_UBRR1 f) (v_UDR1 f)
  | UCSR1C => mk_sfr (v_UCSR1A f) (v_UCSR1B f) v (v_UBRR1 f) (v_UDR1 f)
  | UBRR1 => mk_sfr (v_UCSR1A f) (v_UCSR1B f) (v_UCSR1C f) v (v_UDR1 f)
  | UDR1 => mk_sfr (v_UCSR1A f) (v_UCSR1B f) (v_UCSR1C f) (v_UBRR1 f) v
  end.

(** Width in bits of each register: [UBRR1] is the 16-bit baud-rate
    register, the others are 8-bit. *)
Definition sfr_width (r : sfr) : Z :=
  match r with
  | UBRR1 => 16
  | _ => 8
  end.

(** What register [r] holds: the value last assigned to it, converted to the
    register's unsigned type. *)
Definition sfr_held (r : sfr) (f : sfr_file) : Z :=
  sfr_get r f mod 2 ^ sfr_width r.

(** ** A state monad with one undefined outcome *)

Inductive result (A : Type) : Type :=
| Undefined
| Done (a : A) (m : machine).
Arguments Undefined {A}.
Arguments Done {A} a m.

Definition M (A : Type) : Type := machine -> result A.

Definition ret {A} (a : A) : M A := fun m => Done a m.

Definition bind {A B} (c : M A) (k : A -> M B) : M B :=
  fun m => match c m with
           | Undefined => Undefined
           | Done a m' => k a m'
           end.

Notation "x <- c ;; k" := (bind c (fun x => k))
  (at level 61, c at next level, right associativity).
Notation "c ;; k" := (bind c (fun _ => k))
  (at level 61, right associativity).

Definition lift {A} (o : option A) : M A :=
  fun m => match o with Some a => Done a m | None => Undefined end.

Definition sfr_read (r : sfr) : M Z := fun m => Done (sfr_get r (sfrs m)) m.

Definition sfr_write (r : sfr) (v : Z) : M unit :=
  fun m => Done tt (mk_machine (sfr_set r v (sfrs m))
                               (sfr_writes m ++ [(r, v)])
                               (usart_fifo_tx m) (usart_fifo_rx m)).

Definition set_tx_consumer (h : evth) (mask : Z) : M unit :=
  fun m => Done tt (mk_machine (sfrs m) (sfr_writes m)
                      (mk_fifo (fifo_data (usart_fifo_tx m))
                               (fifo_total_sz (usart_fifo_tx m)) h mask)
                      (usart_fifo_rx m)).

Definition tx_fifo_read_one : M Z :=
  fun m => let (b, f) := fifo_read_one (usart_fifo_tx m) in
           Done b (mk_machine (sfrs m) (sfr_writes m) f (usart_fifo_rx m)).

Definition rx_fifo_write_one (v : Z) : M Z :=
  fun m => let (r, f) := fifo_write_one (usart_fifo_rx m) v in
           Done r (mk_machine (sfrs m) (sfr_writes m) (usart_fifo_tx m) f).

(** ** The driver *)

Section Usart.

Context {io : AvrIo}.
Variable F_CPU : Z.

Definition F_CPU_DIV_8 : Z := F_CPU / 8.
Definition F_CPU_DIV_16 : Z := F_CPU / 16.

(** [UBRR_VAL(f_cpu, baud)]: [((f_cpu) + ((baud)/2))/(baud)] on [uint32_t];
    no value when [baud] is zero. *)
Definition UBRR_VAL (f_cpu baud : Z) : option Z :=
  if baud =? 0 then None else Some (u32 (f_cpu + baud / 2) / baud).

(** [UBRR_ERR(f_cpu, div, baud)]: [((f_cpu) * (div)) - (baud)] on
    [uint32_t]. *)
Definition UBRR_ERR (f_cpu div baud : Z) : Z :=
  u32 (u32 (f_cpu * div) - baud).

(** Lines 50-62 of [usart_init]: the value of [ubrr_div16] after the
    comparison of the two errors. *)
Definition pick_closest (baud ubrr_div16 ubrr_div8 : Z) : Z :=
  if truthy ubrr_div16 && truthy ubrr_div8 then
    let err_div16 := s32 (UBRR_ERR F_CPU_DIV_16 ubrr_div16 baud) in
    let err_div8 := s32 (UBRR_ERR F_CPU_DIV_8 ubrr_div8 baud) in
    let err_div16 := if err_div16 <? 0 then s32 (- err_div16) else err_div16 in
    let err_div8 := if err_div8 <? 0 then s32 (- err_div8) else err_div8 in
    if err_div16 >? err_div8 then 0 else ubrr_div16
  else ubrr_div16.

(** Lines 67-71: the value assigned to [UCSR1C]. *)
Definition ucsr1c_value (mode : Z) : Z :=
  Z.lor (Z.lor (Z.lor (Z.lor
    (Z.shiftl (Z.land (Z.shiftr mode 14) 3) UMSEL10)   (* USART mode *)
    (Z.shiftl (Z.land (Z.shiftr mode 5) 3) UPM10))     (* Parity mode *)
    (Z.shiftl (Z.land (Z.shiftr mode 8) 1) USBS1))     (* Stop bits *)
    (Z.shiftl (Z.land (Z.shiftr mode 9) 3) UCSZ10))    (* Frame size *)
    (Z.shiftl (Z.land (Z.shiftr mode 7) 1) UCPOL1).    (* SCK polarity *)

(** Lines 75-81: the value or-ed into [UCSR1B]. *)
Definition ucsr1b_value (mode : Z) : Z :=
  Z.lor (Z.lor
    (if truthy (Z.land mode USART_MODE_RXEN)           (* Receive settings *)
     then Z.lor (Z.shiftl 1 RXCIE1) (Z.shiftl 1 RXEN1) else 0)
    (if truthy (Z.land mode USART_MODE_TXEN)           (* Transmit settings *)
     then Z.lor (Z.lor (Z.shiftl 1 TXCIE1) (Z.shiftl 1 TXEN1))
                (Z.shiftl 1 UDRIE1)
     else 0))
    (Z.shiftl (Z.land (Z.shiftr mode 11) 1) UCSZ12).

Definition usart_init (baud mode : Z) : M Z :=
  (* Compute baud rate prescaler, try both /8 and /16 modes *)
  ubrr_div16 <- lift (UBRR_VAL F_CPU_DIV_16 baud) ;;
  ubrr_div8 <- lift (UBRR_VAL F_CPU_DIV_8 baud) ;;
  (* If we have neither option, fail now *)
  if negb (truthy ubrr_div16) && negb (truthy ubrr_div8) then ret (-1)
  else
    (* If we have both options, pick the closest *)
    let ubrr_div16 := pick_closest baud ubrr_div16 ubrr_div8 in
    (* Shut everything down first *)
    sfr_write UCSR1B 0 ;;
    sfr_write UCSR1C (ucsr1c_value mode) ;;
    sfr_write UBRR1 (if truthy ubrr_div16 then ubrr_div16 else ubrr_div8) ;;
    sfr_write UCSR1A (if truthy ubrr_div16 then 0 else U2X1) ;;
    old <- sfr_read UCSR1B ;;
    sfr_write UCSR1B (Z.lor old (ucsr1b_value mode)) ;;
    (* Set up FIFO handler *)
    set_tx_consumer evth_usart_txfifo FIFO_EVT_NEW ;;
    ret 0.

Definition usart_txfifo_evth (events : Z) : M unit :=
  if truthy (Z.land events FIFO_EVT_NEW) then
    old <- sfr_read UCSR1A ;;
    sfr_write UCSR1A (Z.lor old (Z.shiftl 1 TXC1))
  else ret tt.

Definition usart_send_next : M unit :=
  byte <- tx_fifo_read_one ;;
  if 0 <=? byte then sfr_write UDR1 byte else ret tt.

Definition ISR_USART1_RX_vect : M unit :=
  v <- sfr_read UDR1 ;;
  rx_fifo_write_one v ;;
  ret tt.

Definition ISR_USART1_TX_vect : M unit := usart_send_next.

Definition ISR_USART1_UDRE_vect : M unit := usart_send_next.

(** Dispatch of a queue's event handler. *)
Definition run_evth (h : evth) (events : Z) : M unit :=
  match h with
  | evth_usart_txfifo => usart_txfifo_evth events
  | _ => ret tt
  end.

End Usart.

(** ** Statements of the specification, in its own words *)

(** "round-half-up integer arithmetic ([(num + den/2) / den] semantics)",
    on unbounded integers. *)
Definition round_half_up (num den : Z) : Z := (num + den / 2) / den.

(** "absolute rounding error (computed as clock×divisor − requested baud, in
    the prescaler's native scale)", on unbounded integers. *)
Definition spec_abs_error (clock_f div baud : Z) : Z :=
  Z.abs (clock_f * div - baud).

(** The factor the specification selects when both divisors are non-zero:
    /8 only when its error is strictly smaller. *)
Inductive prescaler : Type := Div16 | Div8.

Definition spec_select (F_CPU baud div16 div8 : Z) : prescaler :=
  if spec_abs_error (F_CPU / 8) div8 baud
       <? spec_abs_error (F_CPU / 16) div16 baud
  then Div8 else Div16.

(** ** Observations on a run of [usart_init] *)

(** The two candidate divisors of lines 43-44, for a non-zero [baud]. *)
Definition cand16 (F_CPU baud : Z) : Z :=
  u32 (F_CPU_DIV_16 F_CPU + baud / 2) / baud.

Definition cand8 (F_CPU baud : Z) : Z :=
  u32 (F_CPU_DIV_8 F_CPU + baud / 2) / baud.

(** The factor that won: /16 exactly when [ubrr_div16] is still non-zero at
    lines 73-74. *)
Definition winner (F_CPU baud : Z) : prescaler :=
  if truthy (pick_closest F_CPU baud (cand16 F_CPU baud) (cand8 F_CPU baud))
  then Div16 else Div8.

(** What a run of [usart_init] leaves behind when it gets past line 48. *)
Record configured {io : AvrIo} (F_CPU baud mode : Z) (m m' : machine) : Prop := {
  cfg_UBRR1 :
    v_UBRR1 (sfrs m') =
    match winner F_CPU baud with
    | Div16 => cand16 F_CPU baud
    | Div8 => cand8 F_CPU baud
    end;
  cfg_UCSR1A :
    v_UCSR1A (sfrs m') =
    match winner F_CPU baud with Div16 => 0 | Div8 => U2X1 end;
  cfg_UCSR1B : v_UCSR1B (sfrs m') = ucsr1b_value mode;
  cfg_UCSR1C : v_UCSR1C (sfrs m') = ucsr1c_value mode;
  cfg_UDR1 : v_UDR1 (sfrs m') = v_UDR1 (sfrs m);
  cfg_writes :
    sfr_writes m' =
    sfr_writes m ++
      [(UCSR1B, 0); (UCSR1C, v_UCSR1C (sfrs m')); (UBRR1, v_UBRR1 (sfrs m'));
       (UCSR1A, v_UCSR1A (sfrs m')); (UCSR1B, v_UCSR1B (sfrs m'))];
  cfg_tx_evth : consumer_evth (usart_fifo_tx m') = evth_usart_txfifo;
  cfg_tx_evtm : consumer_evtm (usart_fifo_tx m') = FIFO_EVT_NEW;
  cfg_tx_data : fifo_data (usart_fifo_tx m') = fifo_data (usart_fifo_tx m);
  cfg_rx : usart_fifo_rx m' = usart_fifo_rx m
}.

(** Bit [n] of a register field of [width] bits at position [pos] that
    carries the bits of [mode] from bit [src] on. *)
Definition field_bit (mode src width pos n : Z) : bool :=
  (pos <=? n) && (n <? pos + width) && Z.testbit mode (src + (n - pos)).

(** Bit [n] of a group of register bits that are all set when [on] holds. *)
Definition flag_bits (on : bool) (bits : list Z) (n : Z) : bool :=
  on && existsb (Z.eqb n) bits.

(** What one run of a transmit interrupt handler [isr] does to [m]: the
    bytes it takes off the transmit queue are [popped], at most one and from
    the front; each of them is assigned once to [UDR1] and nothing else is
    assigned; when the pop reports an empty queue no register changes. *)
Definition pumps_at_most_one_byte (isr : M unit) (m : machine) : Prop :=
  exists m',
    isr m = Done tt m' /\
    usart_fifo_rx m' = usart_fifo_rx m /\
    let popped := firstn 1 (fifo_data (usart_fifo_tx m)) in
    (length popped <= 1)%nat /\
    fifo_data (usart_fifo_tx m) = popped ++ fifo_data (usart_fifo_tx m') /\
    sfr_writes m' = sfr_writes m ++ map (fun b => (UDR1, byte_val b)) popped /\
    (length (sfr_writes m') <= length (sfr_writes m) + 1)%nat /\
    (forall r, r <> UDR1 -> sfr_get r (sfrs m') = sfr_get r (sfrs m)) /\
    (fst (fifo_read_one (usart_fifo_tx m)) < 0 ->
     sfrs m' = sfrs m /\ sfr_writes m' = sfr_writes m /\
     usart_fifo_tx m' = usart_fifo_tx m).

(** [k] runs of a handler [c], one after the other. *)
Fixpoint run_times (k : nat) (c : M unit) : M unit :=
  match k with
  | O => ret tt
  | S k' => c ;; run_times k' c
  end.

(** Every field of [UCSR1C] and every bit of [UCSR1B] lies within bits 0-7:
    the two-bit fields start at bit 6 at most. *)
Definition fields_in_byte `{AvrIo} : Prop :=
  bit_numbers_ok /\ UMSEL10 <= 6 /\ UPM10 <= 6 /\ UCSZ10 <= 6.

(** The bits of the mode word that [ucsr1c_value] reads: 5-10 and 14-15. *)
Definition UCSR1C_MODE_BITS : Z := 0xC7E0.

(** The register values that a sequence of assignments leaves, starting
    from [f]. *)
Definition replay (ws : list (sfr * Z)) (f : sfr_file) : sfr_file :=
  fold_left (fun g rv => sfr_set (fst rv) (snd rv) g) ws f.

(** A quiescent machine, used to run the driver on concrete inputs. *)
Definition idle_fifo : fifo_t := mk_fifo [] 4 evth_null 0.

Definition idle_machine : machine :=
  mk_machine (mk_sfr 0 0 0 0 0) [] idle_fifo idle_fifo.

(** ** Arithmetic of the divisor computation *)

Lemma u32_small (x : Z) : in_u32 x -> u32 x = x.
Proof. unfold in_u32, u32. intros H. now apply Z.mod_small. Qed.

Lemma ubrr_sum16_in_range (F_CPU baud : Z) :
  in_u32 F_CPU -> in_u32 baud -> in_u32 (F_CPU_DIV_16 F_CPU + baud / 2).
Proof.
  unfold in_u32, F_CPU_DIV_16. intros HF Hb.
  assert (0 <= F_CPU / 16 < 2 ^ 28).
  { split; [apply Z.div_pos; lia|apply Z.div_lt_upper_bound; lia]. }
  assert (0 <= baud / 2 < 2 ^ 31).
  { split; [apply Z.div_pos; lia|apply Z.div_lt_upper_bound; lia]. }
  lia.
Qed.

Lemma ubrr_sum8_in_range (F_CPU baud : Z) :
  in_u32 F_CPU -> in_u32 baud -> in_u32 (F_CPU_DIV_8 F_CPU + baud / 2).
Proof.
  unfold in_u32, F_CPU_DIV_8. intros HF Hb.
  assert (0 <= F_CPU / 8 < 2 ^ 29).
  { split; [apply Z.div_pos; lia|apply Z.div_lt_upper_bound; lia]. }
  assert (0 <= baud / 2 < 2 ^ 31).
  { split; [apply Z.div_pos; lia|apply Z.div_lt_upper_bound; lia]. }
  lia.
Qed.

Lemma cand16_exact (F_CPU baud : Z) :
  in_u32 F_CPU -> in_u32 baud ->
  cand16 F_CPU baud = round_half_up (F_CPU / 16) baud.
Proof.
  intros HF Hb. unfold cand16, round_half_up.
  now rewrite u32_small by now apply ubrr_sum16_in_range.
Qed.

Lemma cand8_exact (F_CPU baud : Z) :
  in_u32 F_CPU -> in_u32 baud ->
  cand8 F_CPU baud = round_half_up (F_CPU / 8) baud.
Proof.
  intros HF Hb. unfold cand8, round_half_up.
  now rewrite u32_small by now apply ubrr_sum8_in_range.
Qed.

Lemma cand_nonneg (F_CPU baud : Z) :
  in_u32 F_CPU -> 0 < baud < 2 ^ 32 ->
  0 <= cand16 F_CPU baud /\ 0 <= cand8 F_CPU baud.
Proof.
  intros HF Hb. unfold cand16, cand8, u32. split.
  all: apply Z.div_pos; [apply Z.mod_pos_bound|]; lia.
Qed.

(** Rounding the truncated quotient [clock / f] agrees with rounding
    [clock / (f * baud)] when [f] divides the clock or [baud] is even. *)
Lemma round_two_stage (clock f baud : Z) :
  0 < f -> f mod 2 = 0 -> 0 < baud ->
  clock mod f = 0 \/ baud mod 2 = 0 ->
  round_half_up (clock / f) baud = round_half_up clock (f * baud).
Proof.
  intros Hf Hf2 Hb Hdiv. unfold round_half_up.
  apply Z.mod_divide in Hf2; [|lia]. destruct Hf2 as [h Hh].
  assert (Hh0 : 0 < h) by lia.
  rewrite <- (Z.div_div _ f baud) by lia.
  f_equal.
  assert (Hhalf : f * baud / 2 = h * baud).
  { subst f. replace (h * 2 * baud) with (h * baud * 2) by ring.
    apply Z.div_mul. lia. }
  rewrite Hhalf.
  destruct Hdiv as [Hc | He].
  - apply Z.mod_divide in Hc; [|lia]. destruct Hc as [k Hk]. subst clock.
    rewrite Z.div_mul by lia.
    rewrite Z.div_add_l by lia.
    f_equal. subst f.
    rewrite Z.div_mul_cancel_l; lia.
  - apply Z.mod_divide in He; [|lia]. destruct He as [j Hj]. subst baud.
    rewrite Z.div_mul by lia.
    replace (h * (j * 2)) with (j * f) by (subst f; ring).
    rewrite Z.div_add by lia. reflexivity.
Qed.

(** ** Arithmetic of the error comparison *)

Lemma s32_exact (x : Z) : - 2 ^ 31 <= x < 2 ^ 31 -> s32 x = x.
Proof.
  intros H. unfold s32. cbv zeta.
  destruct (Z.leb_spec 0 x).
  - rewrite Z.mod_small by lia.
    destruct (Z.ltb_spec x (2 ^ 31)); lia.
  - replace (x mod 2 ^ 32) with (x + 2 ^ 32).
    + destruct (Z.ltb_spec (x + 2 ^ 32) (2 ^ 31)); lia.
    + apply Z.mod_unique with (q := -1); lia.
Qed.

Lemma UBRR_ERR_exact (f_cpu div baud : Z) :
  - 2 ^ 31 <= f_cpu * div - baud < 2 ^ 31 ->
  s32 (UBRR_ERR f_cpu div baud) = f_cpu * div - baud.
Proof.
  intros H. unfold UBRR_ERR, u32.
  rewrite Zminus_mod_idemp_l.
  unfold s32. cbv zeta. rewrite Z.mod_mod by lia.
  now apply s32_exact.
Qed.

Lemma abs32_exact (e : Z) :
  - 2 ^ 31 < e < 2 ^ 31 ->
  (if e <? 0 then s32 (- e) else e) = Z.abs e.
Proof.
  intros H. destruct (Z.ltb_spec e 0).
  - rewrite s32_exact by lia. lia.
  - lia.
Qed.

(** Where neither error leaves the [int32_t] range, the comparison of lines
    50-62 is the specification's. *)
Lemma pick_closest_in_range (F_CPU baud div16 div8 : Z) :
  div16 <> 0 -> div8 <> 0 ->
  - 2 ^ 31 < F_CPU / 16 * div16 - baud < 2 ^ 31 ->
  - 2 ^ 31 < F_CPU / 8 * div8 - baud < 2 ^ 31 ->
  pick_closest F_CPU baud div16 div8 =
  match spec_select F_CPU baud div16 div8 with
  | Div16 => div16
  | Div8 => 0
  end.
Proof.
  intros H16 H8 R16 R8. unfold pick_closest, spec_select, truthy.
  apply Z.eqb_neq in H16, H8. rewrite H16, H8. cbn [negb andb].
  unfold F_CPU_DIV_16, F_CPU_DIV_8.
  rewrite !UBRR_ERR_exact by lia.
  rewrite !abs32_exact by lia.
  unfold spec_abs_error. rewrite Z.gtb_ltb.
  now destruct (_ <? _).
Qed.

(** ** Runs of [usart_init] *)

Lemma truthy_false (x : Z) : truthy x = false <-> x = 0.
Proof. unfold truthy. destruct (Z.eqb_spec x 0); cbn; split; congruence. Qed.

Lemma truthy_true (x : Z) : truthy x = true <-> x <> 0.
Proof. unfold truthy. destruct (Z.eqb_spec x 0); cbn; split; congruence. Qed.

Lemma pick_closest_zero_or_same (F_CPU baud div16 div8 : Z) :
  pick_closest F_CPU baud div16 div8 = 0 \/
  pick_closest F_CPU baud div16 div8 = div16.
Proof.
  unfold pick_closest.
  destruct (truthy div16 && truthy div8); [|now right].
  cbv zeta. destruct (_ >? _); [now left|now right].
Qed.

Lemma pick_closest_one_zero (F_CPU baud div16 div8 : Z) :
  div16 = 0 \/ div8 = 0 -> pick_closest F_CPU baud div16 div8 = div16.
Proof.
  intros [H | H]; subst; unfold pick_closest, truthy; cbn.
  - reflexivity.
  - now rewrite andb_false_r.
Qed.

Lemma usart_init_zero_baud {io : AvrIo} (F_CPU mode : Z) (m : machine) :
  usart_init F_CPU 0 mode m = Undefined.
Proof. reflexivity. Qed.

Lemma usart_init_run {io : AvrIo} (F_CPU baud mode : Z) (m : machine) :
  baud <> 0 ->
  (cand16 F_CPU baud = 0 /\ cand8 F_CPU baud = 0 /\
   usart_init F_CPU baud mode m = Done (-1) m) \/
  (~ (cand16 F_CPU baud = 0 /\ cand8 F_CPU baud = 0) /\
   exists m', usart_init F_CPU baud mode m = Done 0 m' /\
              configured F_CPU baud mode m m').
Proof.
  intros Hb. unfold usart_init, bind, lift, UBRR_VAL.
  apply Z.eqb_neq in Hb. rewrite Hb.
  fold (cand16 F_CPU baud). fold (cand8 F_CPU baud).
  destruct (truthy (cand16 F_CPU baud)) eqn:E16;
    destruct (truthy (cand8 F_CPU baud)) eqn:E8; cbn [negb andb].
  4: { left. apply truthy_false in E16, E8. now repeat split. }
  all: right; split;
    [ intros [Z16 Z8]; apply truthy_false in Z16, Z8; congruence | ].
  all: eexists; split; [reflexivity|].
  all: destruct (truthy (pick_closest F_CPU baud _ _)) eqn:EP;
    constructor; cbn; unfold winner; rewrite ?EP;
    repeat rewrite <- app_assoc; try reflexivity.
  all: apply truthy_true in EP;
    destruct (pick_closest_zero_or_same F_CPU baud
                (cand16 F_CPU baud) (cand8 F_CPU baud)); congruence.
Qed.

Lemma UBRR_VAL_cand16 (F_CPU baud : Z) :
  baud <> 0 -> UBRR_VAL (F_CPU_DIV_16 F_CPU) baud = Some (cand16 F_CPU baud).
Proof.
  intros Hb. unfold UBRR_VAL. apply Z.eqb_neq in Hb. now rewrite Hb.
Qed.

Lemma UBRR_VAL_cand8 (F_CPU baud : Z) :
  baud <> 0 -> UBRR_VAL (F_CPU_DIV_8 F_CPU) baud = Some (cand8 F_CPU baud).
Proof.
  intros Hb. unfold UBRR_VAL. apply Z.eqb_neq in Hb. now rewrite Hb.
Qed.

Lemma pick_closest_discards (F_CPU baud div16 div8 : Z) :
  pick_closest F_CPU baud div16 div8 = 0 -> div16 = 0 \/ div8 <> 0.
Proof.
  unfold pick_closest.
  destruct (truthy div16 && truthy div8) eqn:E.
  - apply andb_prop in E. destruct E as [_ E]. apply truthy_true in E.
    now right.
  - now left.
Qed.

Lemma winner_div16 (F_CPU baud : Z) :
  winner F_CPU baud = Div16 ->
  cand16 F_CPU baud <> 0 /\
  pick_closest F_CPU baud (cand16 F_CPU baud) (cand8 F_CPU baud)
  = cand16 F_CPU baud.
Proof.
  unfold winner.
  destruct (truthy (pick_closest _ _ _ _)) eqn:E; [|discriminate].
  intros _. apply truthy_true in E.
  destruct (pick_closest_zero_or_same F_CPU baud
              (cand16 F_CPU baud) (cand8 F_CPU baud)) as [H | H];
    [congruence|]. split; congruence.
Qed.

Lemma winner_div8 (F_CPU baud : Z) :
  winner F_CPU baud = Div8 ->
  cand16 F_CPU baud = 0 \/ cand8 F_CPU baud <> 0.
Proof.
  unfold winner.
  destruct (truthy (pick_closest _ _ _ _)) eqn:E; [discriminate|].
  intros _. apply truthy_false in E. now apply pick_closest_discards in E.
Qed.

(** The value [usart_init] assigns to [UCSR1A] is the bit number [U2X1]
    itself, not [1 << U2X1] as for the bits of [UCSR1B]; a bit number never
    has its own bit set. *)
Lemma bit_number_not_own_mask (n : Z) : 0 <= n -> Z.testbit n n = false.
Proof.
  intros Hn. destruct (Z.eq_dec n 0) as [-> | Hz]; [reflexivity|].
  apply Z.bits_above_log2; [lia|]. apply Z.log2_lt_lin. lia.
Qed.

(** ** Baud-rate selection *)

(** C2 (as the code has it).  For every 32-bit clock and every baud rate in
    [1, 2^32), each candidate divisor is the round-half-up quotient of the
    already truncated clock [clock / f] by [baud], computed without
    wrap-around; it is the round-half-up quotient of [clock] by [f * baud]
    whenever [f] divides the clock or [baud] is even. *)
Theorem ubrr_candidates_rounding (F_CPU baud : Z) :
  in_u32 F_CPU -> 0 < baud < 2 ^ 32 ->
  UBRR_VAL (F_CPU_DIV_16 F_CPU) baud
    = Some (round_half_up (F_CPU / 16) baud) /\
  UBRR_VAL (F_CPU_DIV_8 F_CPU) baud
    = Some (round_half_up (F_CPU / 8) baud) /\
  (F_CPU mod 16 = 0 \/ baud mod 2 = 0 ->
   round_half_up (F_CPU / 16) baud = round_half_up F_CPU (16 * baud)) /\
  (F_CPU mod 8 = 0 \/ baud mod 2 = 0 ->
   round_half_up (F_CPU / 8) baud = round_half_up F_CPU (8 * baud)).
Proof.
  intros HF Hb.
  assert (Hb' : in_u32 baud) by (unfold in_u32; lia).
  repeat split.
  - rewrite UBRR_VAL_cand16 by lia. f_equal. now apply cand16_exact.
  - rewrite UBRR_VAL_cand8 by lia. f_equal. now apply cand8_exact.
  - intros H. apply round_two_stage; (reflexivity || lia || assumption).
  - intros H. apply round_two_stage; (reflexivity || lia || assumption).
Qed.

Lemma ubrr_candidates_rounding_witness :
  UBRR_VAL (F_CPU_DIV_16 16000000) 9600
    = Some (round_half_up (16000000 / 16) 9600) /\
  UBRR_VAL (F_CPU_DIV_8 16000000) 9600
    = Some (round_half_up (16000000 / 8) 9600) /\
  (16000000 mod 16 = 0 \/ 9600 mod 2 = 0 ->
   round_half_up (16000000 / 16) 9600 = round_half_up 16000000 (16 * 9600)) /\
  (16000000 mod 8 = 0 \/ 9600 mod 2 = 0 ->
   round_half_up (16000000 / 8) 9600 = round_half_up 16000000 (8 * 9600)).
Proof.
  apply (ubrr_candidates_rounding 16000000 9600); unfold in_u32; lia.
Defined.

(** C2 (as stated) fails: with a 3.579545 MHz clock and baud 1 the /16
    candidate of [usart_init] is 223721, while the round-half-up quotient of
    3579545 by [16 * 1] is 223722. *)
Lemma ubrr_div16_not_round_half_up :
  UBRR_VAL (F_CPU_DIV_16 3579545) 1 = Some 223721 /\
  round_half_up 3579545 (16 * 1) = 223722 /\
  UBRR_VAL (F_CPU_DIV_16 3579545) 1
    <> Some (round_half_up 3579545 (16 * 1)).
Proof.
  repeat split; try reflexivity. vm_compute. discriminate.
Qed.

(** C1 (the code at a failing input).  With a 14.7456 MHz clock and baud 600
    both candidates are non-zero (1536 and 3072) and both are exact
    ([16 * 1536 * 600] and [8 * 3072 * 600] are the clock).  The /16 error
    [|921600 * 1536 - 600|] is the smaller one, so the specification selects
    /16; the product [1843200 * 3072] of the /8 error wraps modulo [2^32],
    line 60 discards /16 and [usart_init] programs the /8 divisor. *)
Theorem usart_init_error_wraps {io : AvrIo} (mode : Z) (m : machine) :
  cand16 14745600 600 = 1536 /\
  cand8 14745600 600 = 3072 /\
  16 * 1536 * 600 = 14745600 /\
  8 * 3072 * 600 = 14745600 /\
  spec_abs_error (14745600 / 16) 1536 600
    < spec_abs_error (14745600 / 8) 3072 600 /\
  spec_select 14745600 600 1536 3072 = Div16 /\
  pick_closest 14745600 600 1536 3072 = 0 /\
  winner 14745600 600 = Div8 /\
  exists m', usart_init 14745600 600 mode m = Done 0 m' /\
             v_UBRR1 (sfrs m') = 3072 /\
             v_UCSR1A (sfrs m') = U2X1.
Proof.
  assert (W : winner 14745600 600 = Div8) by (vm_compute; reflexivity).
  repeat split; try (vm_compute; reflexivity).
  destruct (usart_init_run 14745600 600 mode m) as [[Z16 _] | [_ [m' [R C]]]];
    [lia| vm_compute in Z16; discriminate |].
  exists m'. split; [exact R|].
  rewrite (cfg_UBRR1 _ _ _ _ _ C), (cfg_UCSR1A _ _ _ _ _ C), W.
  split; [vm_compute|]; reflexivity.
Qed.

(** The same wrap-around at 16 MHz and 300 baud: the specification's
    comparison keeps /16, the code discards it. *)
Example usart_init_16MHz_300 :
  cand16 16000000 300 = 3333 /\ cand8 16000000 300 = 6667 /\
  spec_select 16000000 300 3333 6667 = Div16 /\
  winner 16000000 300 = Div8.
Proof. repeat split; vm_compute; reflexivity. Qed.

(** At 16 MHz and 9600 baud no product wraps and /16 is kept. *)
Example usart_init_16MHz_9600 :
  cand16 16000000 9600 = 104 /\ cand8 16000000 9600 = 208 /\
  spec_select 16000000 9600 104 208 = Div16 /\
  winner 16000000 9600 = Div16.
Proof. repeat split; vm_compute; reflexivity. Qed.

(** A clock for which /8 is the closer factor and is selected: both
    candidates are 1, the errors are 40 and 20. *)
Example usart_init_960Hz_100 :
  cand16 960 100 = 1 /\ cand8 960 100 = 1 /\
  spec_select 960 100 1 1 = Div8 /\
  winner 960 100 = Div8.
Proof. repeat split; vm_compute; reflexivity. Qed.




(** C5 (as the code has it).  The divisions of lines 43-44 are not guarded:
    with [baud = 0] the first of them divides by zero and [usart_init] has
    no defined result.  For every baud rate in [1, 2^32) and every 32-bit
    clock the two sums do not wrap, both divisions are defined and
    [usart_init] returns [0] or [-1]. *)
Theorem usart_init_defined_iff_baud_nonzero {io : AvrIo}
    (F_CPU baud mode : Z) (m : machine) :
  in_u32 F_CPU -> in_u32 baud ->
  (baud = 0 -> usart_init F_CPU baud mode m = Undefined) /\
  (baud <> 0 ->
   in_u32 (F_CPU_DIV_16 F_CPU + baud / 2) /\
   in_u32 (F_CPU_DIV_8 F_CPU + baud / 2) /\
   exists r m', usart_init F_CPU baud mode m = Done r m' /\
                (r = 0 \/ r = -1)).
Proof.
  intros HF Hb. split.
  - intros ->. apply usart_init_zero_baud.
  - intros Hnz.
    split; [now apply ubrr_sum16_in_range|].
    split; [now apply ubrr_sum8_in_range|].
    destruct (usart_init_run F_CPU baud mode m Hnz)
      as [[_ [_ R]] | [_ [m' [R _]]]].
    + exists (-1), m. split; [exact R|now right].
    + exists 0, m'. split; [exact R|now left].
Qed.

Lemma usart_init_defined_iff_baud_nonzero_witness :
  (115200 = 0 ->
   @usart_init at90usb 16000000 115200 3 idle_machine = Undefined) /\
  (115200 <> 0 ->
   in_u32 (F_CPU_DIV_16 16000000 + 115200 / 2) /\
   in_u32 (F_CPU_DIV_8 16000000 + 115200 / 2) /\
   exists r m', @usart_init at90usb 16000000 115200 3 idle_machine = Done r m' /\
                (r = 0 \/ r = -1)).
Proof.
  apply (@usart_init_defined_iff_baud_nonzero at90usb 16000000 115200 3
           idle_machine); unfold in_u32; lia.
Defined.

(** C5 (as stated) fails: with [baud = 0] the run does not return the
    failure result, it divides by zero. *)
Lemma usart_init_zero_baud_not_unachievable :
  @usart_init at90usb 16000000 0 3 idle_machine = Undefined /\
  ~ (exists m', @usart_init at90usb 16000000 0 3 idle_machine = Done (-1) m').
Proof.
  split; [reflexivity|]. intros [m' H]. discriminate H.
Qed.

(** C7.  When exactly one candidate divisor is non-zero, lines 50-62 leave
    [ubrr_div16] as it is whatever the clock that enters the error terms, and
    [usart_init] succeeds and programs the non-zero candidate: the /8 one
    (with the [U2X1] value in [UCSR1A]) when the /16 candidate is zero, the
    /16 one (with [UCSR1A] zero) when the /8 candidate is zero. *)
Theorem usart_init_single_feasible {io : AvrIo}
    (F_CPU baud mode : Z) (m : machine) :
  baud <> 0 ->
  (cand16 F_CPU baud = 0 /\ cand8 F_CPU baud <> 0) \/
  (cand16 F_CPU baud <> 0 /\ cand8 F_CPU baud = 0) ->
  (forall clock,
     pick_closest clock baud (cand16 F_CPU baud) (cand8 F_CPU baud)
     = cand16 F_CPU baud) /\
  winner F_CPU baud = (if cand16 F_CPU baud =? 0 then Div8 else Div16) /\
  exists m', usart_init F_CPU baud mode m = Done 0 m' /\
             v_UBRR1 (sfrs m') =
               (if cand16 F_CPU baud =? 0 then cand8 F_CPU baud
                else cand16 F_CPU baud) /\
             v_UCSR1A (sfrs m') =
               (if cand16 F_CPU baud =? 0 then U2X1 else 0).
Proof.
  intros Hb Hone.
  assert (P : forall clock,
             pick_closest clock baud (cand16 F_CPU baud) (cand8 F_CPU baud)
             = cand16 F_CPU baud).
  { intros clock. apply pick_closest_one_zero. tauto. }
  assert (W : winner F_CPU baud
              = if cand16 F_CPU baud =? 0 then Div8 else Div16).
  { unfold winner. rewrite P. unfold truthy.
    now destruct (cand16 F_CPU baud =? 0). }
  split; [exact P|]. split; [exact W|].
  destruct (usart_init_run F_CPU baud mode m Hb)
    as [[Z16 [Z8 _]] | [_ [m' [R C]]]]; [lia|].
  exists m'. split; [exact R|].
  rewrite (cfg_UBRR1 _ _ _ _ _ C), (cfg_UCSR1A _ _ _ _ _ C), W.
  now destruct (cand16 F_CPU baud =? 0).
Qed.

Lemma usart_init_single_feasible_witness :
  (forall clock,
     pick_closest clock 250000 (cand16 1000000 250000) (cand8 1000000 250000)
     = cand16 1000000 250000) /\
  winner 1000000 250000
    = (if cand16 1000000 250000 =? 0 then Div8 else Div16) /\
  exists m', @usart_init at90usb 1000000 250000 3 idle_machine = Done 0 m' /\
             v_UBRR1 (sfrs m') =
               (if cand16 1000000 250000 =? 0 then cand8 1000000 250000
                else cand16 1000000 250000) /\
             v_UCSR1A (sfrs m') =
               (if cand16 1000000 250000 =? 0 then @U2X1 at90usb else 0).
Proof.
  apply (@usart_init_single_feasible at90usb 1000000 250000 3 idle_machine).
  - lia.
  - left. vm_compute. split; [reflexivity|discriminate].
Defined.

(** C10.  A run of [usart_init] that returns [-1] leaves the machine exactly
    as it found it: no register is assigned (the log of assignments and every
    register value are the old ones) and the transmit queue keeps its event
    handler and event mask. *)
Theorem usart_init_failure_no_effect {io : AvrIo}
    (F_CPU baud mode : Z) (m m' : machine) :
  usart_init F_CPU baud mode m = Done (-1) m' ->
  m' = m /\
  sfr_writes m' = sfr_writes m /\
  sfrs m' = sfrs m /\
  consumer_evth (usart_fifo_tx m') = consumer_evth (usart_fifo_tx m) /\
  consumer_evtm (usart_fifo_tx m') = consumer_evtm (usart_fifo_tx m) /\
  (baud <> 0 -> cand16 F_CPU baud = 0 /\ cand8 F_CPU baud = 0).
Proof.
  intros R.
  assert (Hb : baud <> 0).
  { intros ->. rewrite usart_init_zero_baud in R. discriminate. }
  destruct (usart_init_run F_CPU baud mode m Hb)
    as [[Z16 [Z8 R']] | [_ [m'' [R' _]]]]; rewrite R' in R.
  - injection R as <-. now repeat split.
  - discriminate.
Qed.

Lemma usart_init_failure_no_effect_witness :
  idle_machine = idle_machine /\
  sfr_writes idle_machine = sfr_writes idle_machine /\
  sfrs idle_machine = sfrs idle_machine /\
  consumer_evth (usart_fifo_tx idle_machine)
    = consumer_evth (usart_fifo_tx idle_machine) /\
  consumer_evtm (usart_fifo_tx idle_machine)
    = consumer_evtm (usart_fifo_tx idle_machine) /\
  (5000000 <> 0 -> cand16 16000000 5000000 = 0 /\ cand8 16000000 5000000 = 0).
Proof.
  apply (@usart_init_failure_no_effect at90usb 16000000 5000000 3
           idle_machine idle_machine).
  reflexivity.
Defined.

Lemma usart_init_success_inv {io : AvrIo}
    (F_CPU baud mode : Z) (m m' : machine) :
  usart_init F_CPU baud mode m = Done 0 m' ->
  baud <> 0 /\
  ~ (cand16 F_CPU baud = 0 /\ cand8 F_CPU baud = 0) /\
  configured F_CPU baud mode m m'.
Proof.
  intros R.
  assert (Hb : baud <> 0).
  { intros ->. rewrite usart_init_zero_baud in R. discriminate. }
  destruct (usart_init_run F_CPU baud mode m Hb)
    as [[_ [_ R']] | [NZ [m'' [R' C]]]]; rewrite R' in R.
  - discriminate.
  - injection R as <-. split; [exact Hb|]. split; [exact NZ|exact C].
Qed.

(** C3 (as the code has it).  On a successful run the double-speed setting
    belongs to the /8 factor: when /16 won, [UCSR1A] is assigned zero and its
    [U2X1] bit is clear; a non-zero [UCSR1A] is assigned only when /8 won. *)
Theorem double_speed_only_for_div8 {io : AvrIo}
    (F_CPU baud mode : Z) (m m' : machine) :
  usart_init F_CPU baud mode m = Done 0 m' ->
  (winner F_CPU baud = Div16 ->
   v_UCSR1A (sfrs m') = 0 /\
   Z.testbit (v_UCSR1A (sfrs m')) U2X1 = false) /\
  (v_UCSR1A (sfrs m') <> 0 -> winner F_CPU baud = Div8).
Proof.
  intros R. apply usart_init_success_inv in R. destruct R as [_ [_ C]].
  rewrite (cfg_UCSR1A _ _ _ _ _ C).
  destruct (winner F_CPU baud); split; try congruence.
  intros _. split; [reflexivity|apply Z.testbit_0_l].
Qed.

Lemma double_speed_only_for_div8_witness :
  exists m',
    @usart_init at90usb 16000000 9600 3 idle_machine = Done 0 m' /\
    (winner 16000000 9600 = Div16 ->
     v_UCSR1A (sfrs m') = 0 /\
     Z.testbit (v_UCSR1A (sfrs m')) (@U2X1 at90usb) = false) /\
    (v_UCSR1A (sfrs m') <> 0 -> winner 16000000 9600 = Div8).
Proof.
  eexists. split; [vm_compute; reflexivity|].
  apply (@double_speed_only_for_div8 at90usb 16000000 9600 3 idle_machine).
  vm_compute. reflexivity.
Defined.

(** C3 (as stated) fails: at 16 MHz and 9600 baud the /16 factor wins and the
    [U2X1] bit of [UCSR1A] is left clear. *)
Lemma double_speed_clear_when_div16_wins :
  exists m',
    @usart_init at90usb 16000000 9600 3 idle_machine = Done 0 m' /\
    winner 16000000 9600 = Div16 /\
    Z.testbit (v_UCSR1A (sfrs m')) (@U2X1 at90usb) = false /\
    ~ (Z.testbit (v_UCSR1A (sfrs m')) (@U2X1 at90usb) = true <->
       winner 16000000 9600 = Div16).
Proof.
  eexists. split; [vm_compute; reflexivity|].
  split; [vm_compute; reflexivity|].
  split; [vm_compute; reflexivity|].
  intros [_ H]. specialize (H eq_refl). vm_compute in H. discriminate.
Qed.

(** Whatever the factor, the value assigned to [UCSR1A] is [0] or the bit
    number [U2X1], so the bit of that number is never set by [usart_init]. *)
Lemma usart_init_U2X1_bit_clear {io : AvrIo}
    (F_CPU baud mode : Z) (m m' : machine) :
  0 <= U2X1 ->
  usart_init F_CPU baud mode m = Done 0 m' ->
  Z.testbit (v_UCSR1A (sfrs m')) U2X1 = false.
Proof.
  intros H R. apply usart_init_success_inv in R. destruct R as [_ [_ C]].
  rewrite (cfg_UCSR1A _ _ _ _ _ C).
  destruct (winner F_CPU baud).
  - apply Z.testbit_0_l.
  - now apply bit_number_not_own_mask.
Qed.

(** ** Frame format *)

Lemma field_testbit (mode src width pos n : Z) :
  0 <= src -> 0 <= width -> 0 <= pos -> 0 <= n ->
  Z.testbit (Z.shiftl (Z.land (Z.shiftr mode src) (Z.ones width)) pos) n
  = field_bit mode src width pos n.
Proof.
  intros Hs Hw Hp Hn. unfold field_bit. rewrite Z.shiftl_spec by lia.
  destruct (Z.leb_spec pos n) as [Hle | Hlt].
  - rewrite Z.land_spec, Z.shiftr_spec, Z.testbit_ones_nonneg by lia.
    cbn [andb].
    replace (n <? pos + width) with (n - pos <? width)
      by (destruct (Z.ltb_spec (n - pos) width),
                   (Z.ltb_spec n (pos + width)); lia || reflexivity).
    rewrite andb_comm. f_equal. f_equal. lia.
  - now rewrite Z.testbit_neg_r by lia.
Qed.

Lemma mask_testbit (k n : Z) :
  0 <= k -> Z.testbit (Z.shiftl 1 k) n = (n =? k).
Proof.
  intros Hk. rewrite Z.shiftl_1_l, Z.pow2_bits_eqb by lia. apply Z.eqb_sym.
Qed.

Lemma ucsr1c_value_bits {io : AvrIo} (mode n : Z) :
  bit_numbers_ok -> 0 <= n ->
  Z.testbit (ucsr1c_value mode) n =
    field_bit mode 14 2 UMSEL10 n || field_bit mode 5 2 UPM10 n
    || field_bit mode 8 1 USBS1 n || field_bit mode 9 2 UCSZ10 n
    || field_bit mode 7 1 UCPOL1 n.
Proof.
  intros Hok Hn. bit_ranges Hok.
  unfold ucsr1c_value.
  change 3 with (Z.ones 2). change 1 with (Z.ones 1).
  rewrite !Z.lor_spec, !field_testbit by lia. reflexivity.
Qed.

Lemma ucsr1b_value_bits {io : AvrIo} (mode n : Z) :
  bit_numbers_ok -> 0 <= n ->
  Z.testbit (ucsr1b_value mode) n =
    flag_bits (truthy (Z.land mode USART_MODE_RXEN)) [RXCIE1; RXEN1] n
    || flag_bits (truthy (Z.land mode USART_MODE_TXEN))
         [TXCIE1; TXEN1; UDRIE1] n
    || field_bit mode 11 1 UCSZ12 n.
Proof.
  intros Hok Hn. bit_ranges Hok.
  unfold ucsr1b_value, flag_bits.
  rewrite !Z.lor_spec.
  change (Z.land (Z.shiftr mode 11) 1)
    with (Z.land (Z.shiftr mode 11) (Z.ones 1)).
  rewrite field_testbit by lia.
  f_equal. f_equal.
  - destruct (truthy (Z.land mode USART_MODE_RXEN)); cbn [andb existsb].
    + rewrite Z.lor_spec, !mask_testbit by lia. now rewrite orb_false_r.
    + apply Z.testbit_0_l.
  - destruct (truthy (Z.land mode USART_MODE_TXEN)); cbn [andb existsb].
    + rewrite !Z.lor_spec, !mask_testbit by lia.
      now rewrite orb_false_r, orb_assoc.
    + apply Z.testbit_0_l.
Qed.

(** C6.  After a successful [usart_init], bit by bit: [UCSR1C] carries mode
    bits 14-15 in the two-bit field at [UMSEL10], bits 5-6 at [UPM10], bit 8
    at [USBS1], bits 9-10 at [UCSZ10] and bit 7 at [UCPOL1], and nothing
    else; [UCSR1B] has [RXCIE1] and [RXEN1] set exactly when the RXEN flag is
    in the mode word, [TXCIE1], [TXEN1] and [UDRIE1] set exactly when the
    TXEN flag is, mode bit 11 at [UCSZ12], and nothing else. *)
Theorem usart_init_control_registers {io : AvrIo}
    (F_CPU baud mode : Z) (m m' : machine) (n : Z) :
  bit_numbers_ok -> 0 <= n ->
  usart_init F_CPU baud mode m = Done 0 m' ->
  Z.testbit (v_UCSR1C (sfrs m')) n =
    (field_bit mode 14 2 UMSEL10 n || field_bit mode 5 2 UPM10 n
     || field_bit mode 8 1 USBS1 n || field_bit mode 9 2 UCSZ10 n
     || field_bit mode 7 1 UCPOL1 n) /\
  Z.testbit (v_UCSR1B (sfrs m')) n =
    (flag_bits (truthy (Z.land mode USART_MODE_RXEN)) [RXCIE1; RXEN1] n
     || flag_bits (truthy (Z.land mode USART_MODE_TXEN))
          [TXCIE1; TXEN1; UDRIE1] n
     || field_bit mode 11 1 UCSZ12 n).
Proof.
  intros Hok Hn R. apply usart_init_success_inv in R.
  destruct R as [_ [_ C]].
  rewrite (cfg_UCSR1C _ _ _ _ _ C), (cfg_UCSR1B _ _ _ _ _ C).
  split; [now apply ucsr1c_value_bits|now apply ucsr1b_value_bits].
Qed.

Lemma usart_init_control_registers_witness :
  exists m',
    @usart_init at90usb 16000000 9600 0x4603 idle_machine = Done 0 m' /\
    Z.testbit (v_UCSR1C (sfrs m')) 6 =
      (field_bit 0x4603 14 2 (@UMSEL10 at90usb) 6
       || field_bit 0x4603 5 2 (@UPM10 at90usb) 6
       || field_bit 0x4603 8 1 (@USBS1 at90usb) 6
       || field_bit 0x4603 9 2 (@UCSZ10 at90usb) 6
       || field_bit 0x4603 7 1 (@UCPOL1 at90usb) 6) /\
    Z.testbit (v_UCSR1B (sfrs m')) 6 =
      (flag_bits (truthy (Z.land 0x4603 (@USART_MODE_RXEN at90usb)))
         [@RXCIE1 at90usb; @RXEN1 at90usb] 6
       || flag_bits (truthy (Z.land 0x4603 (@USART_MODE_TXEN at90usb)))
            [@TXCIE1 at90usb; @TXEN1 at90usb; @UDRIE1 at90usb] 6
       || field_bit 0x4603 11 1 (@UCSZ12 at90usb) 6).
Proof.
  eexists. split; [vm_compute; reflexivity|].
  apply (@usart_init_control_registers at90usb 16000000 9600 0x4603
           idle_machine).
  - unfold bit_numbers_ok. repeat constructor; cbn; lia.
  - lia.
  - vm_compute. reflexivity.
Defined.

(** On the USART1 layout of the AT90USB family the two registers come out as
    the data sheet has them: asynchronous 8N1 with both directions enabled. *)
Example usart_init_8n1 :
  exists m',
    @usart_init at90usb 16000000 9600 0x0603 idle_machine = Done 0 m' /\
    v_UCSR1C (sfrs m') = 0x06 /\ v_UCSR1B (sfrs m') = 0xF8 /\
    v_UBRR1 (sfrs m') = 104 /\ v_UCSR1A (sfrs m') = 0.
Proof. eexists. repeat split; vm_compute; reflexivity. Qed.

(** ** Interrupt handlers *)

Lemma byte_val_nonneg (b : byte) : 0 <= byte_val b.
Proof. unfold byte_val. lia. Qed.

Lemma byte_of_Z_val (v : Z) : byte_val (byte_of_Z v) = u8 v.
Proof.
  unfold byte_of_Z, byte_val.
  assert (Hr : 0 <= u8 v < 256).
  { unfold u8. apply Z.mod_pos_bound. lia. }
  destruct (Byte.of_N (Z.to_N (u8 v))) as [b|] eqn:E.
  - apply Byte.to_of_N in E. rewrite E. lia.
  - apply Byte.of_N_None_iff in E. lia.
Qed.

(** C8.  One run of the transmit-complete handler, and one run of the
    data-register-empty handler, takes at most one byte (the oldest) off the
    transmit queue and assigns at most once, to [UDR1] only, the byte it
    took; when the pop reports an empty queue, no register changes and
    nothing is assigned. *)
Theorem usart_tx_isr_one_byte (m : machine) :
  pumps_at_most_one_byte ISR_USART1_TX_vect m /\
  pumps_at_most_one_byte ISR_USART1_UDRE_vect m.
Proof.
  assert (P : pumps_at_most_one_byte usart_send_next m).
  { unfold pumps_at_most_one_byte, usart_send_next, bind, tx_fifo_read_one,
      fifo_read_one.
    destruct m as [regs log tx rx]. cbn [usart_fifo_tx usart_fifo_rx sfrs
                                          sfr_writes].
    destruct (fifo_data tx) as [|b rest] eqn:E.
    - eexists. split; [reflexivity|]. cbn. rewrite ?E. cbn.
      repeat split; rewrite ?app_nil_r; try reflexivity; lia.
    - pose proof (byte_val_nonneg b) as Hb.
      apply Z.leb_le in Hb. cbn [fst snd]. rewrite Hb.
      eexists. split; [reflexivity|]. cbn. rewrite ?E. cbn.
      apply Z.leb_le in Hb.
      repeat split; try reflexivity; try lia.
      + rewrite length_app. cbn. lia.
      + intros r Hr. destruct r; try reflexivity. congruence. }
  split; exact P.
Qed.

(** C9.  The receive-complete handler always returns, with no result to
    report, and touches neither a register nor the transmit queue.  When the
    receive queue is full the machine is left exactly as it was; when it has
    room, the byte read from [UDR1] is appended to it. *)
Theorem usart_rx_isr_drop_or_append (m : machine) :
  exists m',
    ISR_USART1_RX_vect m = Done tt m' /\
    sfrs m' = sfrs m /\
    sfr_writes m' = sfr_writes m /\
    usart_fifo_tx m' = usart_fifo_tx m /\
    (fifo_full (usart_fifo_rx m) = true -> m' = m) /\
    (fifo_full (usart_fifo_rx m) = false ->
     fifo_data (usart_fifo_rx m')
       = fifo_data (usart_fifo_rx m) ++ [byte_of_Z (v_UDR1 (sfrs m))] /\
     fifo_total_sz (usart_fifo_rx m') = fifo_total_sz (usart_fifo_rx m)).
Proof.
  unfold ISR_USART1_RX_vect, bind, sfr_read, rx_fifo_write_one,
    fifo_write_one, ret.
  destruct m as [regs log tx rx].
  cbn [usart_fifo_tx usart_fifo_rx sfrs sfr_writes sfr_get].
  destruct (fifo_full rx) eqn:E.
  - eexists. split; [reflexivity|]. cbn. repeat split; congruence.
  - eexists. split; [reflexivity|]. cbn. repeat split; congruence.
Qed.

(** ** Transmit kick *)

(** The handler [usart_init] registers on the transmit queue sets the
    [TXC1] bit of [UCSR1A] when a new-item event arrives and does nothing
    otherwise. *)
Lemma usart_txfifo_evth_kick {io : AvrIo} (events : Z) (m : machine) :
  0 <= TXC1 ->
  exists m',
    run_evth evth_usart_txfifo events m = Done tt m' /\
    usart_fifo_tx m' = usart_fifo_tx m /\
    usart_fifo_rx m' = usart_fifo_rx m /\
    (Z.land events FIFO_EVT_NEW <> 0 ->
     Z.testbit (v_UCSR1A (sfrs m')) TXC1 = true /\
     sfr_writes m'
       = sfr_writes m ++ [(UCSR1A, Z.lor (v_UCSR1A (sfrs m)) (Z.shiftl 1 TXC1))]) /\
    (Z.land events FIFO_EVT_NEW = 0 -> m' = m).
Proof.
  intros Hbit. unfold run_evth, usart_txfifo_evth.
  destruct (truthy (Z.land events FIFO_EVT_NEW)) eqn:E.
  - apply truthy_true in E. eexists. split; [reflexivity|].
    cbn. repeat split; try reflexivity; try congruence.
    rewrite Z.lor_spec, mask_testbit, Z.eqb_refl by lia. apply orb_true_r.
  - apply truthy_false in E. exists m. repeat split; congruence.
Qed.

(** ** Further properties of the divisor computation *)

Lemma F_CPU_div_order (F_CPU : Z) : 0 <= F_CPU -> 0 <= F_CPU / 16 <= F_CPU / 8.
Proof. intros H. Z.to_euclidean_division_equations. lia. Qed.

Lemma cand16_le_cand8 (F_CPU baud : Z) :
  in_u32 F_CPU -> 0 < baud < 2 ^ 32 -> cand16 F_CPU baud <= cand8 F_CPU baud.
Proof.
  intros HF Hb.
  rewrite cand16_exact, cand8_exact by (unfold in_u32 in *; lia).
  unfold round_half_up. apply Z.div_le_mono; [lia|].
  unfold in_u32 in HF. pose proof (F_CPU_div_order F_CPU). lia.
Qed.

Lemma cand8_zero_iff (F_CPU baud : Z) :
  in_u32 F_CPU -> 0 < baud < 2 ^ 32 ->
  cand8 F_CPU baud = 0 <-> F_CPU / 8 + baud / 2 < baud.
Proof.
  intros HF Hb.
  rewrite cand8_exact by (unfold in_u32 in *; lia).
  unfold round_half_up. rewrite Z.div_small_iff by lia.
  unfold in_u32 in HF. pose proof (F_CPU_div_order F_CPU).
  assert (0 <= baud / 2) by (apply Z.div_pos; lia). lia.
Qed.

(** The round-half-up quotient is a nearest integer and never exceeds the
    dividend. *)
Lemma round_half_up_nearest (c b : Z) :
  0 <= c -> 0 < b ->
  2 * Z.abs (c - round_half_up c b * b) <= b /\
  0 <= round_half_up c b <= c.
Proof.
  intros Hc Hb. unfold round_half_up.
  assert (Hh : 0 <= b / 2 /\ b - 1 <= 2 * (b / 2) <= b)
    by (Z.to_euclidean_division_equations; lia).
  set (h := b / 2) in *.
  pose proof (Z.div_mod (c + h) b ltac:(lia)) as D.
  pose proof (Z.mod_pos_bound (c + h) b Hb) as R.
  set (u := (c + h) / b) in *. set (r := (c + h) mod b) in *.
  assert (Hu : 0 <= u) by (apply Z.div_pos; lia).
  split; [lia|]. split; [exact Hu|].
  destruct (Z.le_gt_cases u c) as [|Hgt]; [assumption|exfalso].
  assert (b * (c + 1) <= b * u) by (apply Z.mul_le_mono_nonneg_l; lia).
  nia.
Qed.

Lemma cand16_nonzero_baud_small (F_CPU baud : Z) :
  in_u32 F_CPU -> 0 < baud < 2 ^ 32 -> cand16 F_CPU baud <> 0 ->
  baud <= F_CPU / 16 + baud / 2 /\ baud < 2 ^ 30.
Proof.
  intros HF Hb Hnz.
  rewrite cand16_exact in Hnz by (unfold in_u32 in *; lia).
  unfold round_half_up in Hnz. unfold in_u32 in HF.
  pose proof (F_CPU_div_order F_CPU ltac:(lia)) as Ho.
  assert (Hc : F_CPU / 16 < 2 ^ 28) by (apply Z.div_lt_upper_bound; lia).
  assert (Hh : 0 <= baud / 2 /\ baud - 1 <= 2 * (baud / 2) <= baud)
    by (Z.to_euclidean_division_equations; lia).
  assert (Hge : baud <= F_CPU / 16 + baud / 2).
  { destruct (Z.le_gt_cases baud (F_CPU / 16 + baud / 2)); [assumption|].
    exfalso. apply Hnz. apply Z.div_small. lia. }
  split; [exact Hge|lia].
Qed.

(** X1.  Whether [usart_init] fails depends on the clock and the baud rate
    only: the /16 candidate never exceeds the /8 candidate, so the call
    returns [-1] exactly when [F_CPU/8 + baud/2 < baud] and succeeds
    otherwise. *)
Theorem usart_init_fails_iff_baud_too_high {io : AvrIo}
    (F_CPU baud mode : Z) (m : machine) :
  in_u32 F_CPU -> 0 < baud < 2 ^ 32 ->
  cand16 F_CPU baud <= cand8 F_CPU baud /\
  (usart_init F_CPU baud mode m = Done (-1) m <->
   F_CPU / 8 + baud / 2 < baud) /\
  (baud <= F_CPU / 8 + baud / 2 ->
   exists m', usart_init F_CPU baud mode m = Done 0 m').
Proof.
  intros HF Hb.
  pose proof (cand16_le_cand8 F_CPU baud HF Hb) as Hle.
  destruct (cand_nonneg F_CPU baud HF Hb) as [N16 N8].
  pose proof (cand8_zero_iff F_CPU baud HF Hb) as Hz.
  split; [exact Hle|].
  destruct (usart_init_run F_CPU baud mode m)
    as [[Z16 [Z8 R]] | [NZ [m' [R C]]]]; [lia| |].
  - split.
    + split; [intros _; now apply Hz|intros _; exact R].
    + intros H. apply Hz in Z8. lia.
  - assert (H8 : cand8 F_CPU baud <> 0) by lia.
    split.
    + split.
      * intros R'. rewrite R in R'. discriminate.
      * intros H. apply Hz in H. contradiction.
    + intros _. now exists m'.
Qed.

Lemma usart_init_fails_iff_baud_too_high_witness :
  cand16 16000000 1000000 <= cand8 16000000 1000000 /\
  (@usart_init at90usb 16000000 1000000 3 idle_machine
     = Done (-1) idle_machine <->
   16000000 / 8 + 1000000 / 2 < 1000000) /\
  (1000000 <= 16000000 / 8 + 1000000 / 2 ->
   exists m', @usart_init at90usb 16000000 1000000 3 idle_machine = Done 0 m').
Proof.
  apply (@usart_init_fails_iff_baud_too_high at90usb 16000000 1000000 3
           idle_machine); unfold in_u32; lia.
Defined.

(** X2.  When [F_CPU/8 + baud/2 < 2^16 * baud], so that both candidate
    divisors fit the 16-bit register, the divisor that [UBRR1] holds after a
    successful [usart_init] is the one assigned, lies between 1 and
    [F_CPU/8] and is a nearest integer to the quotient of the winning
    factor's clock by the baud rate: twice the distance between that clock
    and [divisor * baud] is at most [baud]. *)
Theorem usart_init_divisor_nearest {io : AvrIo}
    (F_CPU baud mode : Z) (m m' : machine) :
  in_u32 F_CPU -> 0 < baud < 2 ^ 32 ->
  F_CPU / 8 + baud / 2 < 2 ^ 16 * baud ->
  usart_init F_CPU baud mode m = Done 0 m' ->
  sfr_held UBRR1 (sfrs m') =
    match winner F_CPU baud with
    | Div16 => cand16 F_CPU baud
    | Div8 => cand8 F_CPU baud
    end /\
  1 <= sfr_held UBRR1 (sfrs m') <= F_CPU / 8 /\
  match winner F_CPU baud with
  | Div16 =>
      2 * Z.abs (F_CPU / 16 - sfr_held UBRR1 (sfrs m') * baud) <= baud
  | Div8 =>
      2 * Z.abs (F_CPU / 8 - sfr_held UBRR1 (sfrs m') * baud) <= baud
  end.
Proof.
  intros HF Hb Hfit R. apply usart_init_success_inv in R.
  destruct R as [_ [NZ C]].
  assert (Hb' : in_u32 baud) by (unfold in_u32; lia).
  pose proof (cand16_exact F_CPU baud HF Hb') as E16.
  pose proof (cand8_exact F_CPU baud HF Hb') as E8.
  pose proof (cand16_le_cand8 F_CPU baud HF Hb) as Hle.
  destruct (cand_nonneg F_CPU baud HF Hb) as [N16 N8].
  assert (F8 : cand8 F_CPU baud < 2 ^ 16).
  { rewrite E8. unfold round_half_up.
    apply Z.div_lt_upper_bound; lia. }
  unfold in_u32 in HF.
  pose proof (F_CPU_div_order F_CPU ltac:(lia)) as Ho.
  destruct (round_half_up_nearest (F_CPU / 16) baud) as [A16 B16]; [lia..|].
  destruct (round_half_up_nearest (F_CPU / 8) baud) as [A8 B8]; [lia..|].
  rewrite <- E16 in A16, B16. rewrite <- E8 in A8, B8.
  unfold sfr_held. cbn [sfr_get sfr_width].
  rewrite (cfg_UBRR1 _ _ _ _ _ C).
  destruct (winner F_CPU baud) eqn:W.
  - apply winner_div16 in W. rewrite Z.mod_small by lia.
    split; [reflexivity|]. split; [lia|exact A16].
  - apply winner_div8 in W. rewrite Z.mod_small by lia.
    split; [reflexivity|]. split; [lia|exact A8].
Qed.

Lemma usart_init_divisor_nearest_witness :
  exists m',
    @usart_init at90usb 16000000 115200 3 idle_machine = Done 0 m' /\
    sfr_held UBRR1 (sfrs m') =
      match winner 16000000 115200 with
      | Div16 => cand16 16000000 115200
      | Div8 => cand8 16000000 115200
      end /\
    1 <= sfr_held UBRR1 (sfrs m') <= 16000000 / 8 /\
    match winner 16000000 115200 with
    | Div16 =>
        2 * Z.abs (16000000 / 16 - sfr_held UBRR1 (sfrs m') * 115200)
        <= 115200
    | Div8 =>
        2 * Z.abs (16000000 / 8 - sfr_held UBRR1 (sfrs m') * 115200)
        <= 115200
    end.
Proof.
  eexists. split; [vm_compute; reflexivity|].
  apply (@usart_init_divisor_nearest at90usb 16000000 115200 3 idle_machine).
  - unfold in_u32; lia.
  - lia.
  - vm_compute. reflexivity.
  - vm_compute. reflexivity.
Defined.

(** Without that bound the register may hold another number than the
    divisor assigned: at 16 MHz and baud 10 the divisor is 200000 and the
    register holds 3392. *)
Example usart_init_16MHz_10 :
  exists m',
    @usart_init at90usb 16000000 10 3 idle_machine = Done 0 m' /\
    In (UBRR1, 200000) (sfr_writes m') /\
    sfr_held UBRR1 (sfrs m') = 3392.
Proof.
  eexists. split; [vm_compute; reflexivity|].
  split; [cbn; tauto|vm_compute; reflexivity].
Qed.

Lemma error_products_ordered (F_CPU baud : Z) :
  in_u32 F_CPU -> 0 < baud < 2 ^ 32 ->
  0 <= F_CPU / 16 * cand16 F_CPU baud <= F_CPU / 8 * cand8 F_CPU baud.
Proof.
  intros HF Hb.
  pose proof (cand16_le_cand8 F_CPU baud HF Hb) as Hle.
  destruct (cand_nonneg F_CPU baud HF Hb) as [N16 N8].
  unfold in_u32 in HF.
  pose proof (F_CPU_div_order F_CPU ltac:(lia)) as Ho.
  split; [apply Z.mul_nonneg_nonneg; lia|].
  apply Z.mul_le_mono_nonneg; lia.
Qed.

(** X3.  Where the /8 product [F_CPU/8 * ubrr_div8] stays below [2^31] (and
    both candidates are non-zero), the factor [usart_init] selects is the one
    with the smaller [|clock/f * divisor - baud|] on unbounded integers, /16
    on a tie. *)
Theorem usart_select_exact_in_range (F_CPU baud : Z) :
  in_u32 F_CPU -> 0 < baud < 2 ^ 32 ->
  cand16 F_CPU baud <> 0 ->
  F_CPU / 8 * cand8 F_CPU baud < 2 ^ 31 ->
  winner F_CPU baud
  = spec_select F_CPU baud (cand16 F_CPU baud) (cand8 F_CPU baud).
Proof.
  intros HF Hb H16 Hrange.
  pose proof (cand16_le_cand8 F_CPU baud HF Hb) as Hle.
  destruct (cand_nonneg F_CPU baud HF Hb) as [N16 N8].
  destruct (cand16_nonzero_baud_small F_CPU baud HF Hb H16) as [_ Hsmall].
  pose proof (error_products_ordered F_CPU baud HF Hb) as Hord.
  unfold winner.
  rewrite pick_closest_in_range by lia.
  destruct (spec_select F_CPU baud _ _); [|reflexivity].
  apply truthy_true in H16. now rewrite H16.
Qed.

Lemma usart_select_exact_in_range_witness :
  winner 960 100 = spec_select 960 100 (cand16 960 100) (cand8 960 100).
Proof.
  apply (usart_select_exact_in_range 960 100); unfold in_u32; try lia.
  - vm_compute. discriminate.
  - vm_compute. reflexivity.
Defined.

(** X4.  For a baud rate of at most [F_CPU/16], and as long as the /8
    product stays below [2^31], the comparison of lines 50-62 never discards
    /16: the /8 error [F_CPU/8 * ubrr_div8 - baud] is then at least the /16
    error [F_CPU/16 * ubrr_div16 - baud], both being non-negative. *)
Theorem usart_select_div16_below_clock (F_CPU baud : Z) :
  in_u32 F_CPU -> 0 < baud <= F_CPU / 16 ->
  F_CPU / 8 * cand8 F_CPU baud < 2 ^ 31 ->
  winner F_CPU baud = Div16.
Proof.
  intros HF Hb Hrange.
  assert (Hc : F_CPU / 16 < 2 ^ 28)
    by (unfold in_u32 in HF; apply Z.div_lt_upper_bound; lia).
  assert (Hb' : 0 < baud < 2 ^ 32) by lia.
  assert (H16 : 1 <= cand16 F_CPU baud).
  { rewrite cand16_exact by (unfold in_u32 in *; lia).
    unfold round_half_up.
    assert (0 <= baud / 2) by (apply Z.div_pos; lia).
    apply Z.div_le_lower_bound; lia. }
  pose proof (cand16_le_cand8 F_CPU baud HF Hb') as Hle.
  pose proof (error_products_ordered F_CPU baud HF Hb') as Hord.
  assert (baud * 1 <= F_CPU / 16 * cand16 F_CPU baud)
    by (apply Z.mul_le_mono_nonneg; lia).
  unfold winner. rewrite pick_closest_in_range by lia.
  unfold spec_select, spec_abs_error.
  destruct (Z.ltb_spec (Z.abs (F_CPU / 8 * cand8 F_CPU baud - baud))
                       (Z.abs (F_CPU / 16 * cand16 F_CPU baud - baud)));
    [lia|].
  assert (T : truthy (cand16 F_CPU baud) = true) by (apply truthy_true; lia).
  now rewrite T.
Qed.

Lemma usart_select_div16_below_clock_witness : winner 16000000 9600 = Div16.
Proof.
  apply (usart_select_div16_below_clock 16000000 9600).
  - unfold in_u32; lia.
  - split; [lia|]. vm_compute. discriminate.
  - vm_compute. reflexivity.
Defined.

(** ** Further properties of the register programming *)

Lemma sfr_file_eq (a b : sfr_file) :
  (forall r, sfr_get r a = sfr_get r b) -> a = b.
Proof.
  intros H. destruct a, b.
  pose proof (H UCSR1A). pose proof (H UCSR1B). pose proof (H UCSR1C).
  pose proof (H UBRR1). pose proof (H UDR1). cbn in *. congruence.
Qed.

(** The transmit queue after a successful [usart_init]: same bytes, same
    capacity, handler and mask replaced. *)
Lemma usart_init_tx_fifo {io : AvrIo} (F_CPU baud mode : Z) (m m' : machine) :
  usart_init F_CPU baud mode m = Done 0 m' ->
  usart_fifo_tx m' =
  mk_fifo (fifo_data (usart_fifo_tx m)) (fifo_total_sz (usart_fifo_tx m))
          evth_usart_txfifo FIFO_EVT_NEW.
Proof.
  unfold usart_init, bind, lift, UBRR_VAL.
  destruct (baud =? 0); [discriminate|].
  destruct (negb (truthy _) && negb (truthy _)); [discriminate|].
  cbn. intros R. injection R as <-. reflexivity.
Qed.

Lemma usart_init_sfrs {io : AvrIo} (F_CPU baud mode : Z) (m m' : machine) :
  usart_init F_CPU baud mode m = Done 0 m' ->
  sfrs m' =
  mk_sfr (match winner F_CPU baud with Div16 => 0 | Div8 => U2X1 end)
         (ucsr1b_value mode) (ucsr1c_value mode)
         (match winner F_CPU baud with
          | Div16 => cand16 F_CPU baud
          | Div8 => cand8 F_CPU baud
          end)
         (v_UDR1 (sfrs m)).
Proof.
  intros R. apply usart_init_success_inv in R. destruct R as [_ [_ C]].
  apply sfr_file_eq. intros r. destruct r; cbn; apply C.
Qed.

(** X5.  [usart_txfifo_evth] changes nothing but [UCSR1A]: with a new-item
    event it sets bit [TXC1] and keeps every other bit of the register; with
    no such event it leaves the machine as it is. *)
Theorem usart_txfifo_evth_sets_TXC1 {io : AvrIo} (events : Z) (m : machine) :
  0 <= TXC1 ->
  exists m',
    usart_txfifo_evth events m = Done tt m' /\
    usart_fifo_tx m' = usart_fifo_tx m /\
    usart_fifo_rx m' = usart_fifo_rx m /\
    (forall r, r <> UCSR1A -> sfr_get r (sfrs m') = sfr_get r (sfrs m)) /\
    (forall n, 0 <= n ->
       Z.testbit (v_UCSR1A (sfrs m')) n =
       Z.testbit (v_UCSR1A (sfrs m)) n
       || ((n =? TXC1) && truthy (Z.land events FIFO_EVT_NEW))) /\
    (Z.land events FIFO_EVT_NEW = 0 -> m' = m).
Proof.
  intros Hbit. unfold usart_txfifo_evth.
  destruct (truthy (Z.land events FIFO_EVT_NEW)) eqn:E.
  - apply truthy_true in E. eexists. split; [reflexivity|].
    cbn. repeat split; try reflexivity; try congruence.
    + intros r Hr. destruct r; try reflexivity. congruence.
    + intros n Hn. rewrite Z.lor_spec, mask_testbit by lia.
      now rewrite andb_true_r.
  - apply truthy_false in E. exists m. repeat split; try reflexivity.
    intros n Hn. now rewrite andb_false_r, orb_false_r.
Qed.

Lemma usart_txfifo_evth_sets_TXC1_witness :
  exists m',
    @usart_txfifo_evth at90usb 1 idle_machine = Done tt m' /\
    usart_fifo_tx m' = usart_fifo_tx idle_machine /\
    usart_fifo_rx m' = usart_fifo_rx idle_machine /\
    (forall r, r <> UCSR1A ->
       sfr_get r (sfrs m') = sfr_get r (sfrs idle_machine)) /\
    (forall n, 0 <= n ->
       Z.testbit (v_UCSR1A (sfrs m')) n =
       Z.testbit (v_UCSR1A (sfrs idle_machine)) n
       || ((n =? @TXC1 at90usb)
           && truthy (Z.land 1 (@FIFO_EVT_NEW at90usb)))) /\
    (Z.land 1 (@FIFO_EVT_NEW at90usb) = 0 -> m' = idle_machine).
Proof.
  apply (@usart_txfifo_evth_sets_TXC1 at90usb 1 idle_machine). cbn. lia.
Defined.

(** X6.  A successful [usart_init] registers [usart_txfifo_evth] with the
    mask [FIFO_EVT_NEW] on the transmit queue and leaves the queued bytes,
    the capacity, the receive queue and [UDR1] untouched. *)
Theorem usart_init_registers_handler {io : AvrIo}
    (F_CPU baud mode : Z) (m m' : machine) :
  usart_init F_CPU baud mode m = Done 0 m' ->
  consumer_evth (usart_fifo_tx m') = evth_usart_txfifo /\
  consumer_evtm (usart_fifo_tx m') = FIFO_EVT_NEW /\
  fifo_data (usart_fifo_tx m') = fifo_data (usart_fifo_tx m) /\
  fifo_total_sz (usart_fifo_tx m') = fifo_total_sz (usart_fifo_tx m) /\
  usart_fifo_rx m' = usart_fifo_rx m /\
  v_UDR1 (sfrs m') = v_UDR1 (sfrs m) /\
  ~ In UDR1 (map fst (skipn (length (sfr_writes m)) (sfr_writes m'))).
Proof.
  intros R. pose proof (usart_init_tx_fifo _ _ _ _ _ R) as T.
  apply usart_init_success_inv in R. destruct R as [_ [_ C]].
  rewrite T. cbn. repeat split; try apply C.
  rewrite (cfg_writes _ _ _ _ _ C).
  rewrite skipn_app, Nat.sub_diag, skipn_all. cbn.
  intros H. repeat (destruct H as [H | H]; [discriminate|]). exact H.
Qed.

Lemma usart_init_registers_handler_witness :
  exists m',
    @usart_init at90usb 16000000 9600 3 idle_machine = Done 0 m' /\
    consumer_evth (usart_fifo_tx m') = evth_usart_txfifo /\
    consumer_evtm (usart_fifo_tx m') = @FIFO_EVT_NEW at90usb /\
    fifo_data (usart_fifo_tx m') = fifo_data (usart_fifo_tx idle_machine) /\
    fifo_total_sz (usart_fifo_tx m')
      = fifo_total_sz (usart_fifo_tx idle_machine) /\
    usart_fifo_rx m' = usart_fifo_rx idle_machine /\
    v_UDR1 (sfrs m') = v_UDR1 (sfrs idle_machine) /\
    ~ In UDR1 (map fst (skipn (length (sfr_writes idle_machine))
                          (sfr_writes m'))).
Proof.
  eexists. split; [vm_compute; reflexivity|].
  apply (@usart_init_registers_handler at90usb 16000000 9600 3 idle_machine).
  vm_compute. reflexivity.
Defined.

(** X7.  A successful [usart_init] makes exactly five assignments, to
    [UCSR1B], [UCSR1C], [UBRR1], [UCSR1A] and [UCSR1B] in this order; they
    lead from the old register values to the new ones, and after each of the
    first four [UCSR1B] is zero: every enable bit is clear while the frame
    format and the rate are assigned. *)
Theorem usart_init_disabled_while_configuring {io : AvrIo}
    (F_CPU baud mode : Z) (m m' : machine) :
  usart_init F_CPU baud mode m = Done 0 m' ->
  exists ws,
    sfr_writes m' = sfr_writes m ++ ws /\
    map fst ws = [UCSR1B; UCSR1C; UBRR1; UCSR1A; UCSR1B] /\
    replay ws (sfrs m) = sfrs m' /\
    forall k, (1 <= k <= 4)%nat ->
              v_UCSR1B (replay (firstn k ws) (sfrs m)) = 0.
Proof.
  intros R. pose proof (usart_init_sfrs _ _ _ _ _ R) as S.
  apply usart_init_success_inv in R. destruct R as [_ [_ C]].
  eexists. split; [apply C|].
  rewrite S. cbn.
  split; [reflexivity|]. split; [reflexivity|].
  intros k Hk.
  assert (Hcases : k = 1%nat \/ k = 2%nat \/ k = 3%nat \/ k = 4%nat) by lia.
  destruct Hcases as [-> | [-> | [-> | ->]]]; reflexivity.
Qed.

Lemma usart_init_disabled_while_configuring_witness :
  exists m',
    @usart_init at90usb 16000000 9600 3 idle_machine = Done 0 m' /\
    exists ws,
      sfr_writes m' = sfr_writes idle_machine ++ ws /\
      map fst ws = [UCSR1B; UCSR1C; UBRR1; UCSR1A; UCSR1B] /\
      replay ws (sfrs idle_machine) = sfrs m' /\
      forall k, (1 <= k <= 4)%nat ->
                v_UCSR1B (replay (firstn k ws) (sfrs idle_machine)) = 0.
Proof.
  eexists. split; [vm_compute; reflexivity|].
  apply (@usart_init_disabled_while_configuring at90usb 16000000 9600 3
           idle_machine).
  vm_compute. reflexivity.
Defined.

(** X8.  Re-initialisation overwrites: after one successful [usart_init], a
    second successful one leaves the registers and both queues exactly as
    the second call alone would have left them; nothing of the first
    configuration remains. *)
Theorem usart_init_reinit_overwrites {io : AvrIo}
    (F_CPU baud1 mode1 baud2 mode2 : Z) (m m1 m2 : machine) :
  usart_init F_CPU baud1 mode1 m = Done 0 m1 ->
  usart_init F_CPU baud2 mode2 m1 = Done 0 m2 ->
  exists m2',
    usart_init F_CPU baud2 mode2 m = Done 0 m2' /\
    sfrs m2 = sfrs m2' /\
    usart_fifo_tx m2 = usart_fifo_tx m2' /\
    usart_fifo_rx m2 = usart_fifo_rx m2'.
Proof.
  intros R1 R2.
  pose proof (usart_init_tx_fifo _ _ _ _ _ R1) as T1.
  pose proof (usart_init_tx_fifo _ _ _ _ _ R2) as T2.
  pose proof (usart_init_sfrs _ _ _ _ _ R1) as S1.
  pose proof (usart_init_sfrs _ _ _ _ _ R2) as S2.
  apply usart_init_success_inv in R1. destruct R1 as [_ [_ C1]].
  apply usart_init_success_inv in R2. destruct R2 as [Hb [NZ C2]].
  destruct (usart_init_run F_CPU baud2 mode2 m Hb)
    as [[Z16 [Z8 _]] | [_ [m2' [R C]]]]; [tauto|].
  exists m2'. split; [exact R|].
  pose proof (usart_init_tx_fifo _ _ _ _ _ R) as T.
  pose proof (usart_init_sfrs _ _ _ _ _ R) as S.
  split; [|split].
  - rewrite S2, S. f_equal. rewrite S1. reflexivity.
  - rewrite T2, T, T1. reflexivity.
  - rewrite (cfg_rx _ _ _ _ _ C2), (cfg_rx _ _ _ _ _ C1).
    symmetry. apply C.
Qed.

Lemma usart_init_reinit_overwrites_witness :
  exists m1 m2 m2',
    @usart_init at90usb 16000000 9600 0xFFFF idle_machine = Done 0 m1 /\
    @usart_init at90usb 16000000 115200 0x0601 m1 = Done 0 m2 /\
    @usart_init at90usb 16000000 115200 0x0601 idle_machine = Done 0 m2' /\
    sfrs m2 = sfrs m2' /\
    usart_fifo_tx m2 = usart_fifo_tx m2' /\
    usart_fifo_rx m2 = usart_fifo_rx m2'.
Proof.
  eexists. eexists.
  assert (R1 : @usart_init at90usb 16000000 9600 0xFFFF idle_machine
               = Done 0 _) by (vm_compute; reflexivity).
  match type of R1 with
  | _ = Done 0 ?m1 =>
      assert (R2 : @usart_init at90usb 16000000 115200 0x0601 m1
                   = Done 0 _) by (vm_compute; reflexivity)
  end.
  destruct (@usart_init_reinit_overwrites at90usb 16000000 9600 0xFFFF
              115200 0x0601 idle_machine _ _ R1 R2) as [m2' H].
  exists m2'. split; [exact R1|]. split; [exact R2|]. exact H.
Defined.

(** X9.  The value a successful [usart_init] assigns to [UCSR1A] is [0] or
    the bit number [U2X1], never the mask [1 << U2X1]: the bit of number
    [U2X1] is clear after every successful call, whichever factor won. *)
Theorem usart_init_never_sets_U2X1_bit {io : AvrIo}
    (F_CPU baud mode : Z) (m m' : machine) :
  0 <= U2X1 ->
  usart_init F_CPU baud mode m = Done 0 m' ->
  (v_UCSR1A (sfrs m') = 0 \/ v_UCSR1A (sfrs m') = U2X1) /\
  Z.testbit (v_UCSR1A (sfrs m')) U2X1 = false /\
  v_UCSR1A (sfrs m') <> Z.shiftl 1 U2X1.
Proof.
  intros Hbit R.
  pose proof (usart_init_U2X1_bit_clear _ _ _ _ _ Hbit R) as Hclear.
  apply usart_init_success_inv in R. destruct R as [_ [_ C]].
  split; [|split; [exact Hclear|]].
  - rewrite (cfg_UCSR1A _ _ _ _ _ C).
    destruct (winner F_CPU baud); [now left|now right].
  - intros E. rewrite E, mask_testbit, Z.eqb_refl in Hclear by lia.
    discriminate.
Qed.

Lemma usart_init_never_sets_U2X1_bit_witness :
  exists m',
    @usart_init at90usb 1000000 250000 3 idle_machine = Done 0 m' /\
    (v_UCSR1A (sfrs m') = 0 \/ v_UCSR1A (sfrs m') = @U2X1 at90usb) /\
    Z.testbit (v_UCSR1A (sfrs m')) (@U2X1 at90usb) = false /\
    v_UCSR1A (sfrs m') <> Z.shiftl 1 (@U2X1 at90usb).
Proof.
  eexists. split; [vm_compute; reflexivity|].
  apply (@usart_init_never_sets_U2X1_bit at90usb 1000000 250000 3
           idle_machine).
  - cbn. lia.
  - vm_compute. reflexivity.
Defined.

Lemma bits_above_bound (x k : Z) :
  0 <= x -> 0 <= k ->
  (forall n, k <= n -> Z.testbit x n = false) -> x < 2 ^ k.
Proof.
  intros Hx Hk Hbits.
  destruct (Z.lt_ge_cases x (2 ^ k)) as [|Hge]; [assumption|exfalso].
  assert (Hpos : 0 < x) by (pose proof (Z.pow_pos_nonneg 2 k); lia).
  apply Z.log2_le_pow2 in Hge; [|exact Hpos].
  pose proof (Z.bit_log2 x Hpos) as Hone.
  rewrite (Hbits (Z.log2 x) Hge) in Hone. discriminate.
Qed.

Lemma field_bit_above (mode src width pos n : Z) :
  pos + width <= n -> field_bit mode src width pos n = false.
Proof.
  intros H. unfold field_bit.
  destruct (Z.ltb_spec n (pos + width)); [lia|].
  now rewrite andb_false_r.
Qed.

Lemma flag_bits_above (on : bool) (bits : list Z) (n : Z) :
  Forall (fun b => b < n) bits -> flag_bits on bits n = false.
Proof.
  intros H. unfold flag_bits.
  replace (existsb (Z.eqb n) bits) with false; [apply andb_false_r|].
  symmetry. induction H as [|b bs Hb _ IH]; [reflexivity|].
  cbn. rewrite IH. destruct (Z.eqb_spec n b); [lia|reflexivity].
Qed.

Lemma ucsr1c_value_nonneg {io : AvrIo} (mode : Z) : 0 <= ucsr1c_value mode.
Proof.
  unfold ucsr1c_value.
  repeat (apply Z.lor_nonneg; split);
    apply Z.shiftl_nonneg; apply Z.land_nonneg; right; lia.
Qed.

Lemma ucsr1b_value_nonneg {io : AvrIo} (mode : Z) : 0 <= ucsr1b_value mode.
Proof.
  unfold ucsr1b_value.
  repeat (apply Z.lor_nonneg; split).
  - destruct (truthy _); [|lia].
    apply Z.lor_nonneg; split; apply Z.shiftl_nonneg; lia.
  - destruct (truthy _); [|lia].
    repeat (apply Z.lor_nonneg; split); apply Z.shiftl_nonneg; lia.
  - apply Z.shiftl_nonneg, Z.land_nonneg. right. lia.
Qed.

(** X10.  Where every field lies within bits 0-7, the values a successful
    [usart_init] assigns to [UCSR1C] and [UCSR1B] are within 0..255 for every
    mode word: nothing is lost in an 8-bit register. *)
Theorem usart_init_registers_fit_byte {io : AvrIo}
    (F_CPU baud mode : Z) (m m' : machine) :
  fields_in_byte ->
  usart_init F_CPU baud mode m = Done 0 m' ->
  0 <= v_UCSR1C (sfrs m') < 2 ^ 8 /\ 0 <= v_UCSR1B (sfrs m') < 2 ^ 8.
Proof.
  intros [Hok [H1 [H2 H3]]] R.
  apply usart_init_success_inv in R. destruct R as [_ [_ C]].
  rewrite (cfg_UCSR1C _ _ _ _ _ C), (cfg_UCSR1B _ _ _ _ _ C).
  pose proof Hok as Hok'. bit_ranges Hok'.
  split; (split; [apply ucsr1c_value_nonneg || apply ucsr1b_value_nonneg|]).
  - apply bits_above_bound; [apply ucsr1c_value_nonneg|lia|].
    intros n Hn. rewrite ucsr1c_value_bits by (assumption || lia).
    rewrite !field_bit_above by lia. reflexivity.
  - apply bits_above_bound; [apply ucsr1b_value_nonneg|lia|].
    intros n Hn. rewrite ucsr1b_value_bits by (assumption || lia).
    rewrite field_bit_above by lia.
    rewrite !flag_bits_above by (repeat constructor; lia). reflexivity.
Qed.

Lemma usart_init_registers_fit_byte_witness :
  exists m',
    @usart_init at90usb 16000000 9600 0xFFFF idle_machine = Done 0 m' /\
    0 <= v_UCSR1C (sfrs m') < 2 ^ 8 /\ 0 <= v_UCSR1B (sfrs m') < 2 ^ 8.
Proof.
  eexists. split; [vm_compute; reflexivity|].
  apply (@usart_init_registers_fit_byte at90usb 16000000 9600 0xFFFF
           idle_machine).
  - unfold fields_in_byte, bit_numbers_ok.
    split; [repeat constructor; cbn; lia|cbn; lia].
  - vm_compute. reflexivity.
Defined.

Lemma ucsr1c_value_masked {io : AvrIo} (mode : Z) :
  ucsr1c_value (Z.land mode UCSR1C_MODE_BITS) = ucsr1c_value mode.
Proof.
  unfold ucsr1c_value.
  rewrite !Z.shiftr_land, <- !Z.land_assoc. reflexivity.
Qed.

(** X12.  [UCSR1C] depends on bits 5-10 and 14-15 of the mode word only, and
    the divisor and [UCSR1A] do not depend on the mode word at all: two
    successful calls whose mode words agree on those bits leave the same
    [UCSR1C], and any two successful calls with the same clock and baud rate
    leave the same [UBRR1] and [UCSR1A]. *)
Theorem usart_init_mode_bits_read {io : AvrIo}
    (F_CPU baud mode mode' : Z) (m m1 m2 : machine) :
  usart_init F_CPU baud mode m = Done 0 m1 ->
  usart_init F_CPU baud mode' m = Done 0 m2 ->
  v_UBRR1 (sfrs m1) = v_UBRR1 (sfrs m2) /\
  v_UCSR1A (sfrs m1) = v_UCSR1A (sfrs m2) /\
  (Z.land mode UCSR1C_MODE_BITS = Z.land mode' UCSR1C_MODE_BITS ->
   v_UCSR1C (sfrs m1) = v_UCSR1C (sfrs m2)).
Proof.
  intros R1 R2.
  rewrite (usart_init_sfrs _ _ _ _ _ R1), (usart_init_sfrs _ _ _ _ _ R2).
  cbn. repeat split.
  intros E. rewrite <- (ucsr1c_value_masked mode), E.
  apply ucsr1c_value_masked.
Qed.

Lemma usart_init_mode_bits_read_witness :
  exists m1 m2,
    @usart_init at90usb 16000000 9600 0x0603 idle_machine = Done 0 m1 /\
    @usart_init at90usb 16000000 9600 0x3E1F idle_machine = Done 0 m2 /\
    v_UBRR1 (sfrs m1) = v_UBRR1 (sfrs m2) /\
    v_UCSR1A (sfrs m1) = v_UCSR1A (sfrs m2) /\
    (Z.land 0x0603 UCSR1C_MODE_BITS = Z.land 0x3E1F UCSR1C_MODE_BITS ->
     v_UCSR1C (sfrs m1) = v_UCSR1C (sfrs m2)).
Proof.
  eexists. eexists.
  split; [vm_compute; reflexivity|]. split; [vm_compute; reflexivity|].
  apply (@usart_init_mode_bits_read at90usb 16000000 9600 0x0603 0x3E1F
           idle_machine); vm_compute; reflexivity.
Defined.

(** ** Draining the transmit queue *)

Lemma usart_send_next_run (m : machine) :
  usart_send_next m =
  Done tt
    match fifo_data (usart_fifo_tx m) with
    | [] => m
    | b :: rest =>
        mk_machine (sfr_set UDR1 (byte_val b) (sfrs m))
                   (sfr_writes m ++ [(UDR1, byte_val b)])
                   (mk_fifo rest (fifo_total_sz (usart_fifo_tx m))
                            (consumer_evth (usart_fifo_tx m))
                            (consumer_evtm (usart_fifo_tx m)))
                   (usart_fifo_rx m)
    end.
Proof.
  unfold usart_send_next, bind, tx_fifo_read_one, fifo_read_one.
  destruct m as [regs log tx rx]. cbn [usart_fifo_tx usart_fifo_rx sfrs
                                        sfr_writes].
  destruct (fifo_data tx) as [|b rest] eqn:E.
  - reflexivity.
  - pose proof (byte_val_nonneg b) as Hb. apply Z.leb_le in Hb.
    cbn [fst snd]. rewrite Hb. reflexivity.
Qed.

(** X11.  [k] consecutive runs of the transmit handler take the first [k]
    queued bytes (or all of them, if fewer are queued) off the transmit
    queue and assign them to [UDR1] one by one in queue order, a zero byte
    like any other; no other register and not the receive queue is
    touched. *)
Theorem usart_tx_drain (k : nat) (m : machine) :
  exists m',
    run_times k ISR_USART1_TX_vect m = Done tt m' /\
    fifo_data (usart_fifo_tx m') = skipn k (fifo_data (usart_fifo_tx m)) /\
    sfr_writes m' =
      sfr_writes m ++
      map (fun b => (UDR1, byte_val b))
          (firstn k (fifo_data (usart_fifo_tx m))) /\
    usart_fifo_rx m' = usart_fifo_rx m /\
    (forall r, r <> UDR1 -> sfr_get r (sfrs m') = sfr_get r (sfrs m)).
Proof.
  revert m. induction k as [|k IH]; intros m.
  - exists m. cbn. rewrite app_nil_r. now repeat split.
  - cbn [run_times]. unfold bind, ISR_USART1_TX_vect.
    rewrite usart_send_next_run.
    destruct (fifo_data (usart_fifo_tx m)) as [|b rest] eqn:E.
    + destruct (IH m) as [m' [R [D [W [Rx Rg]]]]].
      exists m'. rewrite E in D, W.
      rewrite skipn_nil in D. rewrite firstn_nil in W.
      now repeat split.
    + match goal with
      | |- context [run_times k _ ?m1] =>
          destruct (IH m1) as [m' [R [D [W [Rx Rg]]]]]
      end.
      exists m'. cbn in D, W, Rx, Rg.
      split; [exact R|]. split; [exact D|]. split.
      * rewrite W, <- app_assoc. reflexivity.
      * split; [exact Rx|].
        intros r Hr. rewrite (Rg r Hr). destruct r; try reflexivity.
        congruence.
Qed.

(** ** Initialisation and kick together *)

(** X13.  The mask a successful [usart_init] registers is the one its
    handler tests: calling [usart_txfifo_evth] with the registered mask, for
    a non-zero [FIFO_EVT_NEW], sets [TXC1] in [UCSR1A] by one further
    assignment and keeps the divisor, [UCSR1B], [UCSR1C] and both queues as
    [usart_init] left them. *)
Theorem usart_init_then_kick {io : AvrIo}
    (F_CPU baud mode : Z) (m m1 : machine) :
  0 <= TXC1 -> FIFO_EVT_NEW <> 0 ->
  usart_init F_CPU baud mode m = Done 0 m1 ->
  consumer_evth (usart_fifo_tx m1) = evth_usart_txfifo /\
  exists m2,
    usart_txfifo_evth (consumer_evtm (usart_fifo_tx m1)) m1 = Done tt m2 /\
    Z.testbit (v_UCSR1A (sfrs m2)) TXC1 = true /\
    v_UBRR1 (sfrs m2) = v_UBRR1 (sfrs m1) /\
    v_UCSR1B (sfrs m2) = v_UCSR1B (sfrs m1) /\
    v_UCSR1C (sfrs m2) = v_UCSR1C (sfrs m1) /\
    usart_fifo_tx m2 = usart_fifo_tx m1 /\
    usart_fifo_rx m2 = usart_fifo_rx m1 /\
    sfr_writes m2 = sfr_writes m1 ++ [(UCSR1A, v_UCSR1A (sfrs m2))].
Proof.
  intros Hbit Hnew R.
  pose proof (usart_init_tx_fifo _ _ _ _ _ R) as T.
  rewrite T. cbn [consumer_evth consumer_evtm].
  split; [reflexivity|].
  unfold usart_txfifo_evth.
  assert (E : truthy (Z.land FIFO_EVT_NEW FIFO_EVT_NEW) = true).
  { apply truthy_true. now rewrite Z.land_diag. }
  rewrite E. eexists. split; [reflexivity|].
  cbn. rewrite T. repeat split.
  rewrite Z.lor_spec, mask_testbit, Z.eqb_refl by lia. apply orb_true_r.
Qed.

Lemma usart_init_then_kick_witness :
  exists m1,
    @usart_init at90usb 16000000 9600 3 idle_machine = Done 0 m1 /\
    consumer_evth (usart_fifo_tx m1) = evth_usart_txfifo /\
    exists m2,
      @usart_txfifo_evth at90usb (consumer_evtm (usart_fifo_tx m1)) m1
        = Done tt m2 /\
      Z.testbit (v_UCSR1A (sfrs m2)) (@TXC1 at90usb) = true /\
      v_UBRR1 (sfrs m2) = v_UBRR1 (sfrs m1) /\
      v_UCSR1B (sfrs m2) = v_UCSR1B (sfrs m1) /\
      v_UCSR1C (sfrs m2) = v_UCSR1C (sfrs m1) /\
      usart_fifo_tx m2 = usart_fifo_tx m1 /\
      usart_fifo_rx m2 = usart_fifo_rx m1 /\
      sfr_writes m2 = sfr_writes m1 ++ [(UCSR1A, v_UCSR1A (sfrs m2))].
Proof.
  eexists. split; [vm_compute; reflexivity|].
  apply (@usart_init_then_kick at90usb 16000000 9600 3 idle_machine).
  - cbn. lia.
  - cbn. lia.
  - vm_compute. reflexivity.
Defined.

(** ** The region where only /8 is feasible *)

Lemma F_CPU_div8_le (F_CPU : Z) : 0 <= F_CPU -> F_CPU / 8 <= 2 * (F_CPU / 16) + 1.
Proof. intros H. Z.to_euclidean_division_equations. lia. Qed.

(** X14.  When the /16 candidate is zero and the /8 candidate is not, the
    /8 candidate is exactly 1: [usart_init] then succeeds with divisor 1 and
    the /8 factor. *)
Theorem usart_init_div8_only_divisor_one {io : AvrIo}
    (F_CPU baud mode : Z) (m : machine) :
  in_u32 F_CPU -> 0 < baud < 2 ^ 32 ->
  cand16 F_CPU baud = 0 -> cand8 F_CPU baud <> 0 ->
  cand8 F_CPU baud = 1 /\
  winner F_CPU baud = Div8 /\
  exists m', usart_init F_CPU baud mode m = Done 0 m' /\
             v_UBRR1 (sfrs m') = 1.
Proof.
  intros HF Hb Z16 NZ8.
  assert (Hb' : in_u32 baud) by (unfold in_u32; lia).
  destruct (cand_nonneg F_CPU baud HF Hb) as [_ N8].
  assert (One : cand8 F_CPU baud = 1).
  { pose proof Z16 as Z16'.
    rewrite cand16_exact in Z16' by assumption.
    unfold round_half_up in Z16'. rewrite Z.div_small_iff in Z16' by lia.
    assert (cand8 F_CPU baud < 2); [|lia].
    rewrite cand8_exact by assumption. unfold round_half_up.
    unfold in_u32 in HF.
    pose proof (F_CPU_div8_le F_CPU ltac:(lia)) as Hle.
    pose proof (F_CPU_div_order F_CPU ltac:(lia)) as Ho.
    assert (Hh : 0 <= baud / 2 /\ baud - 1 <= 2 * (baud / 2) <= baud)
      by (Z.to_euclidean_division_equations; lia).
    apply Z.div_lt_upper_bound; lia. }
  assert (W : winner F_CPU baud = Div8).
  { unfold winner. rewrite pick_closest_one_zero by now left.
    rewrite Z16. reflexivity. }
  split; [exact One|]. split; [exact W|].
  destruct (usart_init_run F_CPU baud mode m)
    as [[_ [Z8 _]] | [_ [m' [R C]]]]; [lia|contradiction|].
  exists m'. split; [exact R|].
  rewrite (cfg_UBRR1 _ _ _ _ _ C), W. exact One.
Qed.

Lemma usart_init_div8_only_divisor_one_witness :
  cand8 1000000 250000 = 1 /\
  winner 1000000 250000 = Div8 /\
  exists m', @usart_init at90usb 1000000 250000 3 idle_machine = Done 0 m' /\
             v_UBRR1 (sfrs m') = 1.
Proof.
  apply (@usart_init_div8_only_divisor_one at90usb 1000000 250000 3
           idle_machine).
  - unfold in_u32; lia.
  - lia.
  - vm_compute. reflexivity.
  - vm_compute. discriminate.
Defined.

(** ** Assigned divisor and register content *)

(** The register holds the divisor assigned whenever that divisor is below
    [2^16]; this is so at the inputs used above for the wrapped error
    (14.7456 MHz, baud 600) and for the single feasible factor (1 MHz, baud
    250000). *)
Lemma sfr_held_UBRR1_fits (f : sfr_file) :
  0 <= v_UBRR1 f < 2 ^ 16 -> sfr_held UBRR1 f = v_UBRR1 f.
Proof. intros H. unfold sfr_held. cbn [sfr_get sfr_width]. now apply Z.mod_small. Qed.

Example usart_init_held_divisors :
  (exists m', @usart_init at90usb 14745600 600 3 idle_machine = Done 0 m' /\
              sfr_held UBRR1 (sfrs m') = 3072) /\
  (exists m', @usart_init at90usb 1000000 250000 3 idle_machine = Done 0 m' /\
              sfr_held UBRR1 (sfrs m') = 1).
Proof.
  split; eexists; (split; [vm_compute; reflexivity|vm_compute; reflexivity]).
Qed.
